(** * saas-starter-kit: the dashboard shell, the public header and the
      authentication configuration, embedded and verified.

    The repository is a Next.js application.  Its components are embedded as
    functions that build React element trees; the hook state of a component
    (the header's [offset]) is passed explicitly, and the document the header
    listens on is a record threaded through the effect and its cleanup. *)

From Stdlib Require Import String Ascii List ZArith Bool Arith Lia.
Import ListNotations.
Open Scope string_scope.
Set Warnings "-register-all".

(** ** React elements *)

(** The components whose source is part of the repository. *)
Inductive component : Type :=
  | DashboardSidebarC
  | DashboardHeaderC
  | DashboardLayoutC
  | PublicHeaderC
  | DashboardRouteLayoutC
  | PublicRouteLayoutC
  | DashboardPageC
  | DashboardPlainPageC.

(** The type of an element: a host tag ([header], [div], ...), a component
    imported from outside the sources at hand (ui primitives, [Link],
    [ProfileDropdown], ...), a component that comes out of data
    ([<item.icon />]), or one of the repository's own components. *)
Inductive tag : Type :=
  | Host (name : string)
  | Imported (name : string)
  | Dynamic (ref : string)
  | Repo (c : component).

(** Attribute values: strings, booleans and flat object literals. *)
Inductive pval : Type :=
  | PStr (s : string)
  | PBool (b : bool)
  | PObj (fields : list (string * string)).

Definition props : Type := list (string * pval).

Inductive node : Type :=
  | Text (s : string)
  | Elem (t : tag) (ps : props) (children : list node)
  | Fragment (children : list node).

Definition component_eqb (a b : component) : bool :=
  match a, b with
  | DashboardSidebarC, DashboardSidebarC
  | DashboardHeaderC, DashboardHeaderC
  | DashboardLayoutC, DashboardLayoutC
  | PublicHeaderC, PublicHeaderC
  | DashboardRouteLayoutC, DashboardRouteLayoutC
  | PublicRouteLayoutC, PublicRouteLayoutC
  | DashboardPageC, DashboardPageC
  | DashboardPlainPageC, DashboardPlainPageC => true
  | _, _ => false
  end.

Definition tag_eqb (a b : tag) : bool :=
  match a, b with
  | Host x, Host y => String.eqb x y
  | Imported x, Imported y => String.eqb x y
  | Dynamic x, Dynamic y => String.eqb x y
  | Repo x, Repo y => component_eqb x y
  | _, _ => false
  end.

(** The value of attribute [k]; when a key is given twice the later one wins,
    as in JSX. *)
Fixpoint get_prop (k : string) (ps : props) : option pval :=
  match ps with
  | [] => None
  | (k', v) :: rest =>
      match get_prop k rest with
      | Some w => Some w
      | None => if String.eqb k k' then Some v else None
      end
  end.

(** The elements of type [t] in a tree, in document order. *)
Fixpoint find_all (t : tag) (n : node) : list node :=
  match n with
  | Text _ => []
  | Elem t' _ cs =>
      (if tag_eqb t t' then [n] else []) ++ flat_map (find_all t) cs
  | Fragment cs => flat_map (find_all t) cs
  end.

(** The text a tree shows. *)
Fixpoint text_content (n : node) : string :=
  match n with
  | Text s => s
  | Elem _ _ cs => String.concat "" (map text_content cs)
  | Fragment cs => String.concat "" (map text_content cs)
  end.

(** ** shared/constants/router: the shape of a menu entry

    [DASHBOARD_MENU] itself is not among the sources; the sidebar reads the
    fields [title], [url] and [icon] of its entries, so the list is a
    parameter of the sidebar. *)
Record route : Type := { title : string; url : string; icon : string }.

(** ** shared/components/layouts/dashboard/sidebar.tsx *)

Definition sidebar_menu_item (item : route) : node :=
  Elem (Imported "SidebarMenuItem") [("key", PStr (title item))]
    [ Elem (Imported "SidebarMenuButton") [("asChild", PBool true)]
        [ Elem (Imported "Link") [("href", PStr (url item))]
            [ Elem (Dynamic (icon item)) [] [];
              Elem (Host "span") [] [Text (title item)] ] ] ].

Definition DashboardSidebar (DASHBOARD_MENU : list route) : node :=
  let user :=
    [ ("name", "John Doe");
      ("email", "6Kt0P@example.com");
      ("avatar", "https://github.com/brunorocha.png") ] in
  Elem (Imported "Sidebar")
    [("collapsible", PStr "icon"); ("variant", PStr "floating")]
    [ Elem (Imported "SidebarHeader") []
        [ Elem (Imported "SidebarMenu") []
            [ Elem (Imported "SidebarMenuItem") []
                [ Elem (Imported "SidebarMenuButton") [("asChild", PBool true)]
                    [ Elem (Imported "Link") [("href", PStr "/dashboard")]
                        [ Elem (Imported "LayoutDashboardIcon") [] [];
                          Elem (Host "span") [] [Text "App name"] ] ] ] ] ];
      Elem (Imported "SidebarContent") []
        [ Elem (Imported "SidebarGroup") []
            [ Elem (Imported "SidebarGroupContent") []
                [ Elem (Imported "SidebarMenu") []
                    (map sidebar_menu_item DASHBOARD_MENU) ] ] ];
      Elem (Imported "SidebarFooter") []
        [ Elem (Imported "SidebarMenu") []
            [ Elem (Imported "SidebarMenuItem") []
                [ Elem (Imported "ProfileDropdown")
                    [("user", PObj user); ("side", PStr "right")] [] ] ] ] ].

(** What the content section of a rendered sidebar shows: its menu items,
    and for an item the target of its link and its visible label. *)
Definition content_menu_items (sidebar : node) : list node :=
  flat_map (find_all (Imported "SidebarMenuItem"))
           (find_all (Imported "SidebarContent") sidebar).

Definition link_target (item : node) : option pval :=
  match find_all (Imported "Link") item with
  | l :: _ => match l with Elem _ ps _ => get_prop "href" ps | _ => None end
  | [] => None
  end.

Definition visible_label (item : node) : string := text_content item.

(** ** JavaScript values as the components see them *)

(** A value that may be [undefined]. *)
Definition jsval : Type := option pval.

(** JavaScript truthiness. *)
Definition truthy (v : jsval) : bool :=
  match v with
  | None => false
  | Some (PStr s) => negb (String.eqb s "")
  | Some (PBool b) => b
  | Some (PObj _) => true
  end.

(** [a && b]: the left operand when it is falsy, the right one otherwise. *)
Definition js_and (a b : jsval) : jsval := if truthy a then b else a.

(** [a || b] on numbers: the left operand unless it is zero. *)
Definition js_or_num (a b : Z) : Z := if Z.eqb a 0 then b else a.

(** ** Class names *)

(** A string stands for the JavaScript string with the same code units: a
    character is the code unit with its number, so the strings here are
    those whose code units are all below 256.  Among these, the white space
    of JavaScript ([\s] in a regular expression, and what [trim] removes) is
    tab, line feed, vertical tab, form feed, carriage return, space and the
    no-break space U+00A0. *)
Definition is_space (c : ascii) : bool :=
  let n := nat_of_ascii c in
  Nat.eqb n 32 || (Nat.leb 9 n && Nat.leb n 13) || Nat.eqb n 160.

Definition flush (w : string) : list string :=
  match w with
  | EmptyString => []
  | _ => [w]
  end.

(** The classes of a class-name string: its maximal runs of characters that
    are not white space.  [w] is the run being read. *)
Fixpoint split_from (w s : string) : list string :=
  match s with
  | EmptyString => flush w
  | String c r =>
      if is_space c then flush w ++ split_from "" r
      else split_from (w ++ String c "") r
  end.

Definition class_tokens (s : string) : list string := split_from "" s.

Fixpoint no_space (s : string) : bool :=
  match s with
  | EmptyString => true
  | String c r => negb (is_space c) && no_space r
  end.

(** A class: a run of at least one character, none of them white space. *)
Definition is_class (t : string) : bool :=
  negb (String.eqb t "") && no_space t.

(** clsx: what one argument contributes.  A string contributes itself, an
    object the keys whose values are truthy, anything else nothing. *)
Definition toVal (v : jsval) : string :=
  match v with
  | Some (PStr s) => s
  | Some (PObj fields) =>
      String.concat " "
        (map fst (filter (fun kv => negb (String.eqb (snd kv) "")) fields))
  | _ => ""
  end.

(** clsx: the contributions that are not empty, joined by single spaces. *)
Definition clsx (inputs : list jsval) : string :=
  String.concat " "
    (filter (fun x => negb (String.eqb x "")) (map toVal inputs)).

(** The tables of tailwind-merge: the conflict group a class belongs to
    ([None] for a class Tailwind does not know), and the other groups a group
    overrides. *)
Record TailwindConfig : Type := {
  classGroupId : string -> option string;
  conflictingClassGroups : string -> list string
}.

(** tailwind-merge walks the classes from the last to the first, keeps a
    class unless its group has been claimed by a later class, and returns
    the kept ones in their original order. *)
Fixpoint merge_from_end (cfg : TailwindConfig) (rev_classes seen : list string)
  : list string :=
  match rev_classes with
  | [] => []
  | c :: earlier =>
      match classGroupId cfg c with
      | None => merge_from_end cfg earlier seen ++ [c]
      | Some g =>
          if existsb (String.eqb g) seen
          then merge_from_end cfg earlier seen
          else merge_from_end cfg earlier
                 (g :: conflictingClassGroups cfg g ++ seen) ++ [c]
      end
  end.

Definition mergeClassList (cfg : TailwindConfig) (classes : list string)
  : list string :=
  merge_from_end cfg (rev classes) [].

Definition twMerge (cfg : TailwindConfig) (classList : string) : string :=
  String.concat " " (mergeClassList cfg (class_tokens classList)).

(** Modelled from the spec: [cn] of [@/shared/lib/utils] is not among the
    sources, and the spec only speaks of "CSS utility composition".  It is
    taken to be the helper that every shadcn/ui project carries,
    [twMerge(clsx(inputs))], over Tailwind tables left as a parameter. *)
Definition cn (cfg : TailwindConfig) (inputs : list jsval) : string :=
  twMerge cfg (clsx inputs).

(** A later class [c] takes the place of an earlier class [t]. *)
Definition overrides (cfg : TailwindConfig) (c t : string) : bool :=
  match classGroupId cfg c, classGroupId cfg t with
  | Some g, Some gt =>
      String.eqb g gt || existsb (String.eqb gt) (conflictingClassGroups cfg g)
  | _, _ => false
  end.

(** The class list of an element. *)
Definition class_list (n : node) : list string :=
  match n with
  | Elem _ ps _ =>
      match get_prop "className" ps with
      | Some (PStr s) => class_tokens s
      | _ => []
      end
  | _ => []
  end.

(** ** shared/components/layouts/dashboard/header.tsx *)

(** [{ className, fixed, children, ...props }]: the attributes that are left
    once the named ones are taken out. *)
Definition rest_props (taken : list string) (ps : props) : props :=
  filter (fun kv => negb (existsb (String.eqb (fst kv)) taken)) ps.

(** [React.useState(0)]. *)
Definition initial_offset : Z := 0%Z.

Definition DashboardHeader (cfg : TailwindConfig) (ps : props) (offset : Z)
  (children : list node) : node :=
  let className := get_prop "className" ps in
  let fixed := get_prop "fixed" ps in
  let props := rest_props ["className"; "fixed"; "children"] ps in
  Elem (Host "header")
    (("className",
      PStr (cn cfg
        [ Some (PStr "bg-background flex h-16 items-center gap-3 p-4 sm:gap-4");
          js_and fixed
            (Some (PStr "header-fixed peer/header fixed z-50 w-[inherit] rounded-md"));
          (if truthy (js_and (Some (PBool (10 <? offset)%Z)) fixed)
           then Some (PStr "shadow-sm") else Some (PStr "shadow-none"));
          className ]))
     :: props)
    ([ Elem (Imported "SidebarTrigger")
         [("variant", PStr "outline"); ("className", PStr "scale-125 sm:scale-100")] [];
       Elem (Imported "Separator")
         [("orientation", PStr "vertical"); ("className", PStr "h-6")] [] ]
     ++ children).

(** The two literals of the header, for reference. *)
Definition header_base : string :=
  "bg-background flex h-16 items-center gap-3 p-4 sm:gap-4".

Definition header_fixed : string :=
  "header-fixed peer/header fixed z-50 w-[inherit] rounded-md".

(** The classes the caller's [className] brings. *)
Definition caller_classes (ps : props) : list string :=
  class_tokens (toVal (get_prop "className" ps)).

(** A class that is one of the two shadow classes of the header or takes
    the place of one of them in tailwind-merge. *)
Definition touches_shadow (cfg : TailwindConfig) (c : string) : bool :=
  String.eqb c "shadow-sm" || String.eqb c "shadow-none"
  || overrides cfg c "shadow-sm" || overrides cfg c "shadow-none".

(** An instance of the tables, for examples: the box-shadow sizes of
    Tailwind form one group, and no other class is known. *)
Definition shadow_sizes : list string :=
  [ "shadow"; "shadow-2xs"; "shadow-xs"; "shadow-sm"; "shadow-md";
    "shadow-lg"; "shadow-xl"; "shadow-2xl"; "shadow-inner"; "shadow-none" ].

Definition shadow_tables : TailwindConfig :=
  {| classGroupId := fun c =>
       if existsb (String.eqb c) shadow_sizes then Some "shadow" else None;
     conflictingClassGroups := fun _ => [] |}.

(** The header casts its shadow: it is fixed and the page is scrolled by
    more than ten pixels. *)
Definition shadow_on (ps : props) (offset : Z) : Prop :=
  truthy (get_prop "fixed" ps) = true /\ (10 < offset)%Z.

(** *** The scroll listener of the header *)

Module Dom.

Record listener : Type := {
  ev_type : string;
  callback : nat;
  capture : bool;
  passive : bool
}.

(** The part of the page the header touches: the two scroll positions, the
    listeners of the document, and the next function object to be
    created (every evaluation of an arrow function is a new object). *)
Record page : Type := {
  body_scrollTop : Z;
  documentElement_scrollTop : Z;
  listeners : list listener;
  next_function : nat
}.

Definition same_listener (type : string) (cb : nat) (cap : bool)
  (l : listener) : bool :=
  String.eqb (ev_type l) type && Nat.eqb (callback l) cb
  && Bool.eqb (capture l) cap.

Definition new_function (d : page) : nat * page :=
  (next_function d,
   {| body_scrollTop := body_scrollTop d;
      documentElement_scrollTop := documentElement_scrollTop d;
      listeners := listeners d;
      next_function := S (next_function d) |}).

Definition with_listeners (d : page) (ls : list listener) : page :=
  {| body_scrollTop := body_scrollTop d;
     documentElement_scrollTop := documentElement_scrollTop d;
     listeners := ls;
     next_function := next_function d |}.

(** [document.addEventListener]: a listener with the same type, callback
    and capture flag is not added twice. *)
Definition addEventListener (type : string) (cb : nat) (cap pas : bool)
  (d : page) : page :=
  if existsb (same_listener type cb cap) (listeners d) then d
  else with_listeners d
         (listeners d ++
          [{| ev_type := type; callback := cb; capture := cap; passive := pas |}]).

Fixpoint remove_first (f : listener -> bool) (ls : list listener)
  : list listener :=
  match ls with
  | [] => []
  | l :: rest => if f l then rest else l :: remove_first f rest
  end.

(** [document.removeEventListener] without options: capture is false. *)
Definition removeEventListener (type : string) (cb : nat) (d : page) : page :=
  with_listeners d (remove_first (same_listener type cb false) (listeners d)).

End Dom.

(** The state updates a callback asks for. *)
Inductive update : Type :=
  | SetOffset (v : Z).

(** [onScroll]: what the callback does when a scroll event reaches it. *)
Definition onScroll (d : Dom.page) : list update :=
  [SetOffset (js_or_num (Dom.body_scrollTop d) (Dom.documentElement_scrollTop d))].

(** A mounted header: its [offset] state and the [onScroll] function object
    its effect created, which the cleanup closes over. *)
Record instance : Type := { offset : Z; handler : nat }.

Definition apply_update (u : update) (i : instance) : instance :=
  match u with
  | SetOffset v => {| offset := v; handler := handler i |}
  end.

(** The effect of the header: it runs once, after the first render. *)
Definition header_effect (d : Dom.page) : nat * Dom.page :=
  let (onScroll, d1) := Dom.new_function d in
  (onScroll, Dom.addEventListener "scroll" onScroll false true d1).

(** The function the effect returns. *)
Definition header_cleanup (onScroll : nat) (d : Dom.page) : Dom.page :=
  Dom.removeEventListener "scroll" onScroll d.

(** The listener the effect of a header registers for its [onScroll]. *)
Definition scroll_listener (onScroll : nat) : Dom.listener :=
  {| Dom.ev_type := "scroll"; Dom.callback := onScroll;
     Dom.capture := false; Dom.passive := true |}.

(** A page is well formed when the callbacks of its listeners are function
    objects that have been created already. *)
Definition well_formed (d : Dom.page) : Prop :=
  Forall (fun l => Dom.callback l < Dom.next_function d) (Dom.listeners d).

(** A page with some headers on it, and what can happen to it. *)
Record world : Type := { doc : Dom.page; mounted : list instance }.

Inductive event : Type :=
  | Mount
  | Unmount (i : nat)
  | Scroll (body documentElement : Z).

Fixpoint remove_nth {A : Type} (i : nat) (l : list A) : list A :=
  match i, l with
  | _, [] => []
  | O, _ :: rest => rest
  | S j, x :: rest => x :: remove_nth j rest
  end.

Definition scrolled (body documentElement : Z) (d : Dom.page) : Dom.page :=
  {| Dom.body_scrollTop := body;
     Dom.documentElement_scrollTop := documentElement;
     Dom.listeners := Dom.listeners d;
     Dom.next_function := Dom.next_function d |}.

(** A scroll event reaches the callbacks that are registered for it. *)
Definition deliver (d : Dom.page) (i : instance) : instance :=
  if existsb (Dom.same_listener "scroll" (handler i) false) (Dom.listeners d)
  then fold_left (fun i u => apply_update u i) (onScroll d) i
  else i.

Definition step (a : world) (e : event) : world :=
  match e with
  | Mount =>
      let (h, d) := header_effect (doc a) in
      {| doc := d;
         mounted := mounted a ++ [{| offset := initial_offset; handler := h |}] |}
  | Unmount i =>
      match nth_error (mounted a) i with
      | Some inst =>
          {| doc := header_cleanup (handler inst) (doc a);
             mounted := remove_nth i (mounted a) |}
      | None => a
      end
  | Scroll b e =>
      let d := scrolled b e (doc a) in
      {| doc := d; mounted := map (deliver d) (mounted a) |}
  end.

Definition run (a : world) (es : list event) : world := fold_left step es a.

(** Values for examples: attributes of a fixed header, a page that already
    has a click listener, and a run of events on it. *)
Definition example_props : props :=
  [("fixed", PBool true); ("className", PStr "border-b  px-6")].

Definition example_page : Dom.page :=
  {| Dom.body_scrollTop := 0;
     Dom.documentElement_scrollTop := 0;
     Dom.listeners :=
       [{| Dom.ev_type := "click"; Dom.callback := 0;
           Dom.capture := false; Dom.passive := false |}];
     Dom.next_function := 1 |}.

Definition example_events : list event :=
  [Mount; Scroll 0 30; Mount; Unmount 0].

(** What holds of a page with headers on it: its listeners are those it had
    [before] any header was mounted, followed by one scroll listener per
    mounted header; the callbacks of the headers were created from [first]
    on, and no two headers share one. *)
Record follows (before : list Dom.listener) (first : nat) (w : world) : Prop := {
  follows_listeners :
    Dom.listeners (doc w)
    = (before ++ map (fun i => scroll_listener (handler i)) (mounted w))%list;
  follows_counter : first <= Dom.next_function (doc w);
  follows_range :
    Forall (fun i => first <= handler i < Dom.next_function (doc w)) (mounted w);
  follows_distinct : NoDup (map handler (mounted w))
}.

(** ** shared/components/layouts/dashboard/layout.tsx *)

Definition DashboardLayout (cfg : TailwindConfig) (children : list node) : node :=
  Elem (Imported "SidebarProvider") []
    [ Elem (Repo DashboardSidebarC) [] [];
      Elem (Host "div")
        [ ("id", PStr "content");
          ("className",
           PStr (cn cfg
             [ Some (PStr "ml-auto w-full max-w-full");
               Some (PStr "peer-data-[state=collapsed]:w-[calc(100%-var(--sidebar-width-icon)-1rem)]");
               Some (PStr "peer-data-[state=expanded]:w-[calc(100%-var(--sidebar-width))]");
               Some (PStr "sm:transition-[width] sm:duration-200 sm:ease-linear");
               Some (PStr "flex h-svh flex-col");
               Some (PStr "group-data-[scroll-locked=1]/body:h-full");
               Some (PStr "has-[main.fixed-main]:group-data-[scroll-locked=1]/body:h-svh") ])) ]
        children ].

(** ** The public header (part_000) *)

Definition nav_link (href label : string) : node :=
  Elem (Imported "Link")
    [ ("href", PStr href);
      ("className",
       PStr "flex items-center text-sm font-medium text-muted-foreground transition-colors hover:text-foreground") ]
    [Text label].

Definition PublicHeader : node :=
  Elem (Host "header")
    [("className",
      PStr "sticky top-0 z-40 w-full border-b bg-background/95 backdrop-blur supports-[backdrop-filter]:bg-background/60")]
    [ Elem (Host "div")
        [("className", PStr "container flex h-16 items-center justify-between")]
        [ Elem (Host "div")
            [("className", PStr "flex items-center gap-6 md:gap-10")]
            [ Elem (Imported "Link")
                [("href", PStr "/"); ("className", PStr "flex items-center space-x-2")]
                [ Elem (Host "span") [("className", PStr "font-bold text-xl")]
                    [Text "App name"] ];
              Elem (Host "nav") [("className", PStr "hidden md:flex gap-6")]
                [ nav_link "/features" "Features";
                  nav_link "/pricing" "Pricing";
                  nav_link "/docs" "Documentation" ] ];
          Elem (Host "div")
            [("className", PStr "hidden items-center gap-4 md:flex")]
            [ Elem (Imported "Button")
                [("variant", PStr "ghost"); ("asChild", PBool true)]
                [Elem (Imported "Link") [("href", PStr "/signin")] [Text "Sign in"]];
              Elem (Imported "Button") [("asChild", PBool true)]
                [Elem (Imported "Link") [("href", PStr "/signup")] [Text "Get started"]];
              Elem (Imported "Button") [("asChild", PBool true)]
                [Elem (Imported "Link") [("href", PStr "/dashboard")] [Text "Dashboard"]] ] ] ].

(** ** The route files (part_001 to part_004)

    Two of them export a function called [Layout] and two a function called
    [DashboardPage]; a module per file keeps the names. *)

(** The layout of the dashboard routes. *)
Module Part_001.
Definition Layout (children : list node) : node :=
  Elem (Repo DashboardLayoutC) [] children.
End Part_001.

(** The layout of the public routes; [PublicLayout] is imported. *)
Module Part_002.
Definition Layout (children : list node) : node :=
  Elem (Imported "PublicLayout") [] children.
End Part_002.

(** The dashboard page with the profile menu in its header. *)
Module Part_003.
Definition DashboardPage : node :=
  let user :=
    [ ("name", "John Doe");
      ("email", "6Kt0P@example.com");
      ("avatar", "https://github.com/brunorocha.png") ] in
  Fragment
    [ Elem (Repo DashboardHeaderC) []
        [ Elem (Host "div")
            [("className", PStr "ml-auto flex items-center space-x-4")]
            [ Elem (Imported "ProfileDropdown")
                [("user", PObj user); ("side", PStr "bottom")] [] ] ];
      Elem (Imported "DashboardMain") [] [Text "Dashboard"] ].
End Part_003.

(** The dashboard page with a bare header. *)
Module Part_004.
Definition DashboardPage : node :=
  Fragment
    [ Elem (Repo DashboardHeaderC) [] [];
      Elem (Imported "DashboardMain") [] [Text "Dashboard"] ].
End Part_004.

(** ** Rendering *)

(** What a component returns when React calls it with the attributes and the
    children of its element; a header is called with its state as
    [useState] first gives it. *)
Definition call (cfg : TailwindConfig) (DASHBOARD_MENU : list route)
  (c : component) (ps : props) (children : list node) : node :=
  match c with
  | DashboardSidebarC => DashboardSidebar DASHBOARD_MENU
  | DashboardHeaderC => DashboardHeader cfg ps initial_offset children
  | DashboardLayoutC => DashboardLayout cfg children
  | PublicHeaderC => PublicHeader
  | DashboardRouteLayoutC => Part_001.Layout children
  | PublicRouteLayoutC => Part_002.Layout children
  | DashboardPageC => Part_003.DashboardPage
  | DashboardPlainPageC => Part_004.DashboardPage
  end.

Fixpoint all_some {A : Type} (l : list (option A)) : option (list A) :=
  match l with
  | [] => Some []
  | None :: _ => None
  | Some x :: rest => option_map (cons x) (all_some rest)
  end.

(** The first render of a tree: the repository's components are called
    until only host elements and imported components are left.  [None] when
    the fuel runs out. *)
Fixpoint render (cfg : TailwindConfig) (DASHBOARD_MENU : list route)
  (fuel : nat) (n : node) : option node :=
  match fuel with
  | O => None
  | S f =>
      match n with
      | Text s => Some (Text s)
      | Fragment cs =>
          option_map Fragment (all_some (map (render cfg DASHBOARD_MENU f) cs))
      | Elem (Repo c) ps cs =>
          render cfg DASHBOARD_MENU f (call cfg DASHBOARD_MENU c ps cs)
      | Elem t ps cs =>
          option_map (Elem t ps) (all_some (map (render cfg DASHBOARD_MENU f) cs))
      end
  end.

(** A tree in which no component of the repository is left to call. *)
Fixpoint rendered (n : node) : bool :=
  match n with
  | Text _ => true
  | Elem (Repo _) _ _ => false
  | Elem _ _ cs => forallb rendered cs
  | Fragment cs => forallb rendered cs
  end.

(** The work a component's own markup stands for, and the work left in a
    tree: the measure that bounds the fuel. *)
Definition cost (DASHBOARD_MENU : list route) (c : component) : nat :=
  match c with
  | DashboardSidebarC => 17 + 6 * List.length DASHBOARD_MENU
  | DashboardHeaderC => 3
  | DashboardLayoutC => 21 + 6 * List.length DASHBOARD_MENU
  | PublicHeaderC => 25
  | DashboardRouteLayoutC => 23 + 6 * List.length DASHBOARD_MENU
  | PublicRouteLayoutC => 1
  | DashboardPageC => 11
  | DashboardPlainPageC => 8
  end.

Fixpoint weight (DASHBOARD_MENU : list route) (n : node) : nat :=
  match n with
  | Text _ => 1
  | Elem t _ cs =>
      S (match t with Repo c => cost DASHBOARD_MENU c | _ => 0 end
         + list_sum (map (weight DASHBOARD_MENU) cs))
  | Fragment cs => S (list_sum (map (weight DASHBOARD_MENU) cs))
  end.

(** The object literals that reach an element as an attribute: the element
    type, the attribute and the object. *)
Fixpoint objects_in (n : node) : list (tag * string * list (string * string)) :=
  match n with
  | Text _ => []
  | Elem t ps cs =>
      flat_map (fun kv => match snd kv with
                          | PObj o => [(t, fst kv, o)]
                          | _ => []
                          end) ps
      ++ flat_map objects_in cs
  | Fragment cs => flat_map objects_in cs
  end.

(** ** The authentication module (part_005) *)

Module Auth.

(** The expressions the module is made of: imported names, calls, array
    and object literals. *)
Inductive expr : Type :=
  | Ident (from name : string)
  | Call (f : expr) (args : list expr)
  | Array (items : list expr)
  | Object (fields : list (string * expr)).

Definition NextAuth : expr := Ident "next-auth" "default".
Definition Google : expr := Ident "next-auth/providers/google" "default".
Definition prisma : expr := Ident "@/shared/lib/prisma" "prisma".
Definition PrismaAdapter : expr := Ident "@auth/prisma-adapter" "PrismaAdapter".

(** The object handed to [NextAuth]. *)
Definition config : expr :=
  Object [ ("adapter", Call PrismaAdapter [prisma]);
           ("providers", Array [Google]) ].

(** [export const { handlers, signIn, signOut, auth } = NextAuth({...})]. *)
Definition exported : expr := Call NextAuth [config].

Fixpoint field (k : string) (fields : list (string * expr)) : option expr :=
  match fields with
  | [] => None
  | (k', v) :: rest =>
      match field k rest with
      | Some w => Some w
      | None => if String.eqb k k' then Some v else None
      end
  end.

Definition providers (cfg : expr) : list expr :=
  match cfg with
  | Object fs => match field "providers" fs with
                 | Some (Array ps) => ps
                 | _ => []
                 end
  | _ => []
  end.

Definition adapter (cfg : expr) : option expr :=
  match cfg with
  | Object fs => field "adapter" fs
  | _ => None
  end.

(** Whether the module an import names is outside the repository: the
    repository's own modules are imported through the alias [@/]. *)
Definition third_party (e : expr) : bool :=
  match e with
  | Ident from _ => negb (String.prefix "@/" from)
  | _ => false
  end.

(** The key lists of the object literals of an expression. *)
Fixpoint object_shapes (e : expr) : list (list string) :=
  match e with
  | Ident _ _ => []
  | Call f args => object_shapes f ++ flat_map object_shapes args
  | Array items => flat_map object_shapes items
  | Object fs =>
      map fst fs :: flat_map (fun kv => object_shapes (snd kv)) fs
  end.

(** The imported names an expression refers to: module and name. *)
Fixpoint idents (e : expr) : list (string * string) :=
  match e with
  | Ident from name => [(from, name)]
  | Call f args => idents f ++ flat_map idents args
  | Array items => flat_map idents items
  | Object fs => flat_map (fun kv => idents (snd kv)) fs
  end.

End Auth.

(** An object literal with the fields of the placeholder user. *)
Definition user_shaped (keys : list string) : bool :=
  forallb (fun k => existsb (String.eqb k) keys) ["name"; "email"; "avatar"].

(** ** The import declarations of the files

    A name used in a file is bound by an import of that file; the table of a
    file lists each imported name with the module it is imported from. *)
Inductive source_file : Type :=
  | sidebar_tsx
  | header_tsx
  | layout_tsx
  | part_000
  | part_001
  | part_002
  | part_003
  | part_004
  | part_005.

Definition imports (f : source_file) : list (string * string) :=
  match f with
  | sidebar_tsx =>
      [ ("Sidebar", "@/shared/components/ui/sidebar");
        ("SidebarContent", "@/shared/components/ui/sidebar");
        ("SidebarFooter", "@/shared/components/ui/sidebar");
        ("SidebarGroup", "@/shared/components/ui/sidebar");
        ("SidebarGroupContent", "@/shared/components/ui/sidebar");
        ("SidebarHeader", "@/shared/components/ui/sidebar");
        ("SidebarMenu", "@/shared/components/ui/sidebar");
        ("SidebarMenuButton", "@/shared/components/ui/sidebar");
        ("SidebarMenuItem", "@/shared/components/ui/sidebar");
        ("DASHBOARD_MENU", "@/shared/constants/router");
        ("Link", "next/link");
        ("LayoutDashboardIcon", "lucide-react");
        ("ProfileDropdown", "@/features/auth") ]
  | header_tsx =>
      [ ("React", "react");
        ("cn", "@/shared/lib/utils");
        ("SidebarTrigger", "@/shared/components/ui/sidebar");
        ("Separator", "@/shared/components/ui/separator") ]
  | layout_tsx =>
      [ ("ReactNode", "react");
        ("SidebarProvider", "@/shared/components/ui/sidebar");
        ("SidebarTrigger", "@/shared/components/ui/sidebar");
        ("DashboardSidebar", "./sidebar");
        ("cn", "@/shared/lib/utils") ]
  | part_000 =>
      [ ("Link", "next/link");
        ("Button", "@/shared/components/ui/button") ]
  | part_001 =>
      [ ("ReactNode", "react");
        ("DashboardLayout", "@/shared/components/layouts/dashboard/layout") ]
  | part_002 =>
      [ ("ReactNode", "react");
        ("PublicLayout", "@/shared/components/layouts") ]
  | part_003 =>
      [ ("DashboardHeader", "@/shared/components/layouts");
        ("DashboardMain", "@/shared/components/layouts");
        ("ProfileDropdown", "@/features/auth") ]
  | part_004 =>
      [ ("DashboardHeader", "@/shared/components/layouts");
        ("DashboardMain", "@/shared/components/layouts") ]
  | part_005 =>
      [ ("NextAuth", "next-auth");
        ("Google", "next-auth/providers/google");
        ("prisma", "@/shared/lib/prisma");
        ("PrismaAdapter", "@auth/prisma-adapter") ]
  end.

(** The file a component is written in. *)
Definition file_of (c : component) : source_file :=
  match c with
  | DashboardSidebarC => sidebar_tsx
  | DashboardHeaderC => header_tsx
  | DashboardLayoutC => layout_tsx
  | PublicHeaderC => part_000
  | DashboardRouteLayoutC => part_001
  | PublicRouteLayoutC => part_002
  | DashboardPageC => part_003
  | DashboardPlainPageC => part_004
  end.

Definition component_files : list source_file :=
  [ sidebar_tsx; header_tsx; layout_tsx; part_000; part_001; part_002;
    part_003; part_004 ].

Fixpoint module_of (name : string) (table : list (string * string))
  : option string :=
  match table with
  | [] => None
  | (n, m) :: rest => if String.eqb name n then Some m else module_of name rest
  end.

(** The module an element type of a file is imported from; host elements
    and the components of the file itself have none. *)
Definition tag_module (f : source_file) (t : tag) : option string :=
  match t with
  | Imported name => module_of name (imports f)
  | _ => None
  end.

(** Authentication code: the authentication feature of the repository and
    the Auth.js packages.  Persistence code: the prisma client and its
    adapter. *)
Definition authentication_module (m : string) : bool :=
  String.prefix "@/features/auth" m
  || String.prefix "next-auth" m
  || String.prefix "@auth/" m.

Definition persistence_module (m : string) : bool :=
  String.prefix "@/shared/lib/prisma" m
  || String.prefix "@auth/prisma-adapter" m.

(** The part of the two that is not the repository's authentication
    feature: what the authentication module (part_005) is built from. *)
Definition auth_backend_module (m : string) : bool :=
  String.prefix "next-auth" m
  || String.prefix "@auth/" m
  || String.prefix "@/shared/lib/prisma" m.

(** An object handed to an element of file [f] goes to authentication or
    persistence code. *)
Definition goes_to_auth_or_persistence (f : source_file)
  (x : tag * string * list (string * string)) : bool :=
  match tag_module f (fst (fst x)) with
  | Some m => authentication_module m || persistence_module m
  | None => false
  end.

(** ** Reading a tree *)

(** The attributes and the children of an element. *)
Definition attrs (n : node) : props :=
  match n with
  | Elem _ ps _ => ps
  | _ => []
  end.

Definition children_of (n : node) : list node :=
  match n with
  | Elem _ _ cs => cs
  | Fragment cs => cs
  | Text _ => []
  end.

Definition attr (k : string) (n : node) : option pval := get_prop k (attrs n).

(** The components taken from data that a tree shows, in document order. *)
Fixpoint dynamic_refs (n : node) : list string :=
  match n with
  | Text _ => []
  | Elem t _ cs =>
      (match t with Dynamic r => [r] | _ => [] end) ++ flat_map dynamic_refs cs
  | Fragment cs => flat_map dynamic_refs cs
  end.

(** What [onScroll] leaves in the offset for the two scroll positions. *)
Definition scroll_target (body documentElement : Z) : Z :=
  if Z.eq_dec body 0 then documentElement else body.

(** The element of the dashboard page inside the layout of its route, as
    the router nests them. *)
Definition dashboard_route : node :=
  Elem (Repo DashboardRouteLayoutC) [] [Elem (Repo DashboardPageC) [] []].

(** The content element of the dashboard layout around given children. *)
Definition layout_content (cfg : TailwindConfig) (children : list node) : node :=
  nth 1 (children_of (DashboardLayout cfg children)) (Text "").

(** * Theorems *)

Lemma find_all_menu_item (item : route) :
  find_all (Imported "SidebarMenuItem") (sidebar_menu_item item)
  = [sidebar_menu_item item].
Proof. reflexivity. Qed.

Lemma content_menu_items_sidebar (menu : list route) :
  content_menu_items (DashboardSidebar menu) = map sidebar_menu_item menu.
Proof.
  unfold content_menu_items, DashboardSidebar; cbn.
  rewrite !app_nil_r.
  induction menu as [|r menu IH]; cbn; [reflexivity|].
  now rewrite IH.
Qed.

(** C1. For every configured list of routes, the sidebar's content section
    shows exactly one menu item per route, in the order of the list; the link
    of an item points at the route's [url] and its label is the route's
    [title]. *)
Theorem sidebar_menu_one_item_per_route (DASHBOARD_MENU : list route) :
  map (fun item => (link_target item, visible_label item))
      (content_menu_items (DashboardSidebar DASHBOARD_MENU))
  = map (fun r => (Some (PStr (url r)), title r)) DASHBOARD_MENU.
Proof.
  rewrite content_menu_items_sidebar, map_map.
  apply map_ext; intros r.
  unfold link_target, visible_label; cbn.
  reflexivity.
Qed.

(** ** Class names: splitting and joining *)

Lemma append_empty_r (s : string) : s ++ "" = s.
Proof. induction s as [|c s IH]; cbn; [reflexivity | now rewrite IH]. Qed.

Lemma append_assoc (a b c : string) : (a ++ b) ++ c = a ++ (b ++ c).
Proof. induction a as [|x a IH]; cbn; [reflexivity | now rewrite IH]. Qed.

Lemma no_space_app (a b : string) :
  no_space (a ++ b) = no_space a && no_space b.
Proof.
  induction a as [|c a IH]; cbn; [reflexivity|].
  now rewrite IH, andb_assoc.
Qed.

Lemma split_from_sep (a b w : string) :
  split_from w (a ++ String " " b) = (split_from w a ++ class_tokens b)%list.
Proof.
  revert w; induction a as [|c a IH]; intros w; cbn.
  - reflexivity.
  - destruct (is_space c).
    + now rewrite IH, app_assoc.
    + apply IH.
Qed.

Lemma split_from_run (u w : string) :
  no_space u = true -> split_from w u = flush (w ++ u).
Proof.
  revert w; induction u as [|c u IH]; intros w H; cbn in *.
  - now rewrite append_empty_r.
  - apply andb_prop in H as [Hc Hu].
    apply negb_true_iff in Hc; rewrite Hc.
    rewrite IH by assumption.
    now rewrite append_assoc.
Qed.

Lemma class_tokens_class (t : string) :
  is_class t = true -> class_tokens t = [t].
Proof.
  unfold is_class, class_tokens; intros H.
  apply andb_prop in H as [Hne Hns].
  rewrite split_from_run by assumption; cbn.
  destruct t; [discriminate | reflexivity].
Qed.

Lemma flush_classes (w : string) :
  no_space w = true -> Forall (fun t => is_class t = true) (flush w).
Proof.
  intros H; destruct w as [|c w]; cbn; constructor; [|constructor].
  unfold is_class; now rewrite H.
Qed.

Lemma split_from_classes (s w : string) :
  no_space w = true -> Forall (fun t => is_class t = true) (split_from w s).
Proof.
  revert w; induction s as [|c s IH]; intros w Hw; cbn.
  - now apply flush_classes.
  - destruct (is_space c) eqn:Hc.
    + apply Forall_app; split; [now apply flush_classes | now apply IH].
    + apply IH. rewrite no_space_app, Hw; cbn. now rewrite Hc.
Qed.

Lemma class_tokens_classes (s : string) :
  Forall (fun t => is_class t = true) (class_tokens s).
Proof. now apply split_from_classes. Qed.

Lemma class_tokens_join (l : list string) :
  class_tokens (String.concat " " l) = flat_map class_tokens l.
Proof.
  induction l as [|x l IH]; [reflexivity|].
  destruct l as [|y l].
  - cbn [String.concat flat_map]. now rewrite app_nil_r.
  - change (String.concat " " (x :: y :: l))
      with (x ++ String " " (String.concat " " (y :: l))).
    unfold class_tokens at 1. rewrite split_from_sep.
    now rewrite IH.
Qed.

Lemma class_tokens_join_classes (l : list string) :
  Forall (fun t => is_class t = true) l ->
  class_tokens (String.concat " " l) = l.
Proof.
  intros H; rewrite class_tokens_join.
  induction H as [|t l Ht _ IH]; [reflexivity|].
  cbn [flat_map]. rewrite class_tokens_class by assumption.
  now rewrite IH.
Qed.

Lemma flat_map_tokens_nonempty (l : list string) :
  flat_map class_tokens (filter (fun x => negb (String.eqb x "")) l)
  = flat_map class_tokens l.
Proof.
  induction l as [|x l IH]; [reflexivity|]; cbn [filter flat_map].
  destruct (String.eqb_spec x "") as [->|Hx]; cbn [negb flat_map].
  - exact IH.
  - now rewrite IH.
Qed.

(** The classes of what clsx returns: those of its arguments, in order. *)
Lemma class_tokens_clsx (inputs : list jsval) :
  class_tokens (clsx inputs)
  = flat_map (fun v => class_tokens (toVal v)) inputs.
Proof.
  unfold clsx. rewrite class_tokens_join, flat_map_tokens_nonempty.
  induction inputs as [|v l IH]; [reflexivity|].
  cbn [map flat_map]. now rewrite IH.
Qed.

(** A no-break space separates classes as a space does, so a shadow class
    behind one is among the caller's classes. *)
Lemma caller_classes_no_break_space :
  caller_classes
    [("className", PStr (String "x" (String (ascii_of_nat 160) "shadow-sm")))]
  = ["x"; "shadow-sm"]
  /\ forallb (fun c => negb (touches_shadow shadow_tables c))
       (caller_classes
          [("className", PStr (String "x" (String (ascii_of_nat 160) "shadow-sm")))])
     = false.
Proof. split; reflexivity. Qed.

(** ** tailwind-merge keeps what nothing later overrides *)

Section Merge.
Variable cfg : TailwindConfig.

Lemma merge_from_end_sound (t : string) (l seen : list string) :
  In t (merge_from_end cfg l seen) -> In t l.
Proof.
  revert seen; induction l as [|c l IH]; intros seen H; cbn in *; [exact H|].
  destruct (classGroupId cfg c) as [g|].
  - destruct (existsb (String.eqb g) seen).
    + right; eauto.
    + apply in_app_or in H as [H|[H|[]]]; [right; eauto | now left].
  - apply in_app_or in H as [H|[H|[]]]; [right; eauto | now left].
Qed.

Lemma mergeClassList_sound (t : string) (classes : list string) :
  In t (mergeClassList cfg classes) -> In t classes.
Proof.
  unfold mergeClassList; intros H.
  apply merge_from_end_sound in H. now apply in_rev.
Qed.

Lemma merge_from_end_keeps (t : string) (later earlier seen : list string) :
  (forall c, In c later -> overrides cfg c t = false) ->
  (forall g, classGroupId cfg t = Some g -> existsb (String.eqb g) seen = false) ->
  In t (merge_from_end cfg (later ++ t :: earlier) seen).
Proof.
  revert seen; induction later as [|c later IH]; intros seen Hov Hseen.
  - cbn. destruct (classGroupId cfg t) as [g|] eqn:Hg.
    + rewrite (Hseen g eq_refl). apply in_or_app; right; now left.
    + apply in_or_app; right; now left.
  - cbn [app merge_from_end].
    assert (Hlater : forall c', In c' later -> overrides cfg c' t = false)
      by (intros c' Hc'; apply Hov; now right).
    pose proof (Hov c (or_introl eq_refl)) as Hc.
    unfold overrides in Hc.
    destruct (classGroupId cfg c) as [g|].
    + destruct (existsb (String.eqb g) seen).
      * now apply IH.
      * apply in_or_app; left. apply IH; [assumption|].
        intros gt Hgt. rewrite Hgt in Hc.
        apply orb_false_iff in Hc as [Hne Hconf].
        cbn [existsb]. rewrite existsb_app, Hconf, (Hseen gt Hgt).
        rewrite String.eqb_sym, Hne. reflexivity.
    + apply in_or_app; left. now apply IH.
Qed.

Lemma mergeClassList_keeps (t : string) (earlier later : list string) :
  (forall c, In c later -> overrides cfg c t = false) ->
  In t (mergeClassList cfg (earlier ++ t :: later)).
Proof.
  intros H. unfold mergeClassList.
  rewrite rev_app_distr; cbn [rev]. rewrite <- app_assoc; cbn [app].
  apply merge_from_end_keeps.
  - intros c Hc. apply H. now apply in_rev.
  - reflexivity.
Qed.

Lemma mergeClassList_classes (classes : list string) :
  Forall (fun t => is_class t = true) classes ->
  Forall (fun t => is_class t = true) (mergeClassList cfg classes).
Proof.
  rewrite !Forall_forall. intros H t Ht.
  apply H. now apply mergeClassList_sound.
Qed.

(** The classes of what [cn] returns. *)
Lemma class_tokens_cn (inputs : list jsval) :
  class_tokens (cn cfg inputs)
  = mergeClassList cfg (flat_map (fun v => class_tokens (toVal v)) inputs).
Proof.
  unfold cn, twMerge.
  rewrite class_tokens_join_classes.
  - now rewrite class_tokens_clsx.
  - apply mergeClassList_classes, class_tokens_classes.
Qed.
End Merge.

(** ** The header's class list *)

Lemma get_prop_rest_props (k : string) (taken : list string) (ps : props) :
  existsb (String.eqb k) taken = true ->
  get_prop k (rest_props taken ps) = None.
Proof.
  intros Hk; induction ps as [|[k' v] ps IH]; [reflexivity|].
  cbn [rest_props filter fst].
  destruct (existsb (String.eqb k') taken) eqn:Hk'; cbn [negb].
  - exact IH.
  - cbn [get_prop]. fold (rest_props taken ps). rewrite IH.
    destruct (String.eqb_spec k k') as [->|]; [congruence | reflexivity].
Qed.

Lemma truthy_gate (b : bool) (v : jsval) :
  truthy (js_and (Some (PBool b)) v) = b && truthy v.
Proof. now destruct b. Qed.

Lemma header_class_list (cfg : TailwindConfig) (ps : props) (offset : Z)
  (children : list node) :
  class_list (DashboardHeader cfg ps offset children)
  = mergeClassList cfg
      (class_tokens header_base
       ++ class_tokens (toVal (js_and (get_prop "fixed" ps) (Some (PStr header_fixed))))
       ++ (if (10 <? offset)%Z && truthy (get_prop "fixed" ps)
           then "shadow-sm" else "shadow-none")
       :: caller_classes ps)%list.
Proof.
  unfold DashboardHeader, class_list.
  cbn [get_prop].
  rewrite get_prop_rest_props by reflexivity.
  cbn [String.eqb Ascii.eqb Bool.eqb].
  rewrite class_tokens_cn, truthy_gate.
  cbn [flat_map]. rewrite app_nil_r.
  unfold caller_classes, header_base, header_fixed.
  destruct ((10 <? offset)%Z && truthy (get_prop "fixed" ps)); reflexivity.
Qed.

Lemma In_existsb (t : string) (l : list string) :
  existsb (String.eqb t) l = false -> ~ In t l.
Proof.
  intros H Hin.
  assert (existsb (String.eqb t) l = true) as E
    by (apply existsb_exists; exists t; split; [assumption | apply String.eqb_refl]).
  congruence.
Qed.

Lemma falsy_toVal (v : jsval) : truthy v = false -> toVal v = "".
Proof.
  destruct v as [[s|b|o]|]; cbn; intros H; try reflexivity; try discriminate.
  apply negb_false_iff in H. now apply String.eqb_eq in H.
Qed.

(** The classes the header itself may write, other than the shadow class. *)
Lemma header_own_classes (v : jsval) (t : string) :
  In t (class_tokens header_base
        ++ class_tokens (toVal (js_and v (Some (PStr header_fixed))))) ->
  t <> "shadow-sm" /\ t <> "shadow-none".
Proof.
  intros H. apply in_app_or in H as [H|H].
  - split; intros ->; revert H; apply In_existsb; reflexivity.
  - unfold js_and in H. destruct (truthy v) eqn:Hv.
    + split; intros ->; revert H; apply In_existsb; reflexivity.
    + rewrite (falsy_toVal v Hv) in H. destruct H.
Qed.

Lemma caller_clear (cfg : TailwindConfig) (ps : props) (c : string) :
  forallb (fun c => negb (touches_shadow cfg c)) (caller_classes ps) = true ->
  In c (caller_classes ps) ->
  c <> "shadow-sm" /\ c <> "shadow-none"
  /\ overrides cfg c "shadow-sm" = false
  /\ overrides cfg c "shadow-none" = false.
Proof.
  intros H Hc. rewrite forallb_forall in H. specialize (H c Hc).
  apply negb_true_iff in H. unfold touches_shadow in H.
  repeat (apply orb_false_iff in H as [H ?]).
  repeat split; try assumption; intros ->; discriminate.
Qed.

(** Which of the two shadow classes the header carries, when the caller's
    classes leave them alone. *)
Lemma header_shadow_class (cfg : TailwindConfig) (ps : props) (offset : Z)
  (children : list node) :
  forallb (fun c => negb (touches_shadow cfg c)) (caller_classes ps) = true ->
  let cl := class_list (DashboardHeader cfg ps offset children) in
  if (10 <? offset)%Z && truthy (get_prop "fixed" ps)
  then In "shadow-sm" cl /\ ~ In "shadow-none" cl
  else In "shadow-none" cl /\ ~ In "shadow-sm" cl.
Proof.
  intros Hcaller cl; subst cl. rewrite header_class_list, app_assoc.
  set (own := (class_tokens header_base ++ class_tokens _)%list).
  assert (Hown : forall t, In t own -> t <> "shadow-sm" /\ t <> "shadow-none")
    by (intros t; apply header_own_classes).
  assert (Hcl := caller_clear cfg ps).
  destruct ((10 <? offset)%Z && truthy (get_prop "fixed" ps)); split.
  - apply mergeClassList_keeps. intros c Hc. now apply Hcl.
  - intros H. apply mergeClassList_sound, in_app_or in H as [H|[H|H]].
    + now apply Hown in H.
    + discriminate.
    + now apply Hcl in H.
  - apply mergeClassList_keeps. intros c Hc. now apply Hcl.
  - intros H. apply mergeClassList_sound, in_app_or in H as [H|[H|H]].
    + now apply Hown in H.
    + discriminate.
    + now apply Hcl in H.
Qed.

Lemma shadow_on_bool (ps : props) (offset : Z) :
  shadow_on ps offset <-> (10 <? offset)%Z && truthy (get_prop "fixed" ps) = true.
Proof.
  unfold shadow_on. rewrite andb_true_iff, Z.ltb_lt. tauto.
Qed.

(** C2, as the spec has it, fails: a caller's [className] reaches the class
    list too.  A header that is not fixed and is given
    [className="shadow-sm"] carries [shadow-sm]. *)
Lemma header_shadow_counterexample :
  ~ (In "shadow-sm"
        (class_list (DashboardHeader shadow_tables
                       [("className", PStr "shadow-sm")] 0 []))
     <-> shadow_on [("className", PStr "shadow-sm")] 0).
Proof.
  intros [H _].
  assert (Hin : In "shadow-sm"
                  (class_list (DashboardHeader shadow_tables
                                 [("className", PStr "shadow-sm")] 0 []))).
  { vm_compute. tauto. }
  destruct (H Hin) as [Hfixed _]. discriminate.
Qed.

(** C2, amended.  For every attribute list whose [className] brings neither
    of the two shadow classes nor a class that tailwind-merge lets take their
    place, and for every offset: the class list of the header has
    [shadow-sm] exactly when [fixed] is truthy and the offset is above 10,
    and has [shadow-none] instead exactly when not. *)
Theorem header_shadow (cfg : TailwindConfig) (ps : props) (offset : Z)
  (children : list node) :
  forallb (fun c => negb (touches_shadow cfg c)) (caller_classes ps) = true ->
  let cl := class_list (DashboardHeader cfg ps offset children) in
  (In "shadow-sm" cl <-> shadow_on ps offset)
  /\ (In "shadow-none" cl <-> ~ shadow_on ps offset).
Proof.
  intros Hcaller cl.
  pose proof (header_shadow_class cfg ps offset children Hcaller) as H.
  fold cl in H. rewrite shadow_on_bool.
  destruct ((10 <? offset)%Z && truthy (get_prop "fixed" ps));
    destruct H as [Hin Hout]; repeat split; intros; try congruence;
    try contradiction; try assumption.
Qed.

Lemma header_shadow_witness :
  forallb (fun c => negb (touches_shadow shadow_tables c))
          (caller_classes example_props) = true
  /\ (In "shadow-sm" (class_list (DashboardHeader shadow_tables example_props 42 []))
      <-> shadow_on example_props 42)
  /\ (In "shadow-none" (class_list (DashboardHeader shadow_tables example_props 42 []))
      <-> ~ shadow_on example_props 42).
Proof.
  split; [reflexivity|].
  apply (header_shadow shadow_tables example_props 42 []).
  reflexivity.
Defined.

(** Whatever the tables, the last class of the caller's [className] is in
    the class list. *)
Lemma header_keeps_last_caller_class (cfg : TailwindConfig) (ps : props)
  (offset : Z) (children : list node) (earlier : list string) (t : string) :
  caller_classes ps = (earlier ++ [t])%list ->
  In t (class_list (DashboardHeader cfg ps offset children)).
Proof.
  intros Hps. rewrite header_class_list, Hps.
  set (sh := if (10 <? offset)%Z && truthy (get_prop "fixed" ps)
            then "shadow-sm" else "shadow-none").
  set (a := class_tokens header_base). set (b := class_tokens (toVal _)).
  replace (a ++ b ++ sh :: earlier ++ [t])%list
    with ((a ++ b ++ sh :: earlier) ++ [t])%list
    by (rewrite <- !app_assoc; reflexivity).
  apply mergeClassList_keeps. intros x [].
Qed.

(** C8, as the spec has it, fails for the same reason: at the first render
    a fixed header that is given [className="shadow-sm"] carries [shadow-sm]
    and, the two being one group for tailwind-merge, no [shadow-none]. *)
Lemma header_initial_shadow_counterexample :
  ~ (In "shadow-none"
        (class_list (DashboardHeader shadow_tables
                       [("fixed", PBool true); ("className", PStr "shadow-sm")]
                       initial_offset []))
     /\ ~ In "shadow-sm"
            (class_list (DashboardHeader shadow_tables
                           [("fixed", PBool true); ("className", PStr "shadow-sm")]
                           initial_offset []))).
Proof.
  intros [_ H]. apply H. vm_compute. tauto.
Qed.

Lemma no_scroll_keeps_offsets (es : list event) (w : world) :
  forallb (fun e => match e with Scroll _ _ => false | _ => true end) es = true ->
  Forall (fun i => offset i = initial_offset) (mounted w) ->
  Forall (fun i => offset i = initial_offset) (mounted (run w es)).
Proof.
  revert w; induction es as [|e es IH]; intros w Hes Hw; [exact Hw|].
  cbn [forallb] in Hes. apply andb_prop in Hes as [He Hes].
  cbn [run fold_left]. apply IH; [exact Hes|].
  destruct e as [|i|b d]; [| |discriminate].
  - unfold step. destruct (header_effect (doc w)) as [h d]. cbn [mounted].
    apply Forall_app; split; [exact Hw|]. now repeat constructor.
  - unfold step. destruct (nth_error (mounted w) i); [|exact Hw].
    cbn [mounted]. clear IH Hes He. revert i.
    induction Hw as [|x l Hx Hl IHl]; intros [|i]; cbn; try constructor;
      auto.
Qed.

(** C8, amended.  A header starts with offset 0, and with that offset, for
    every attribute list whose [className] leaves the two shadow classes
    alone (also one in which [fixed] is true), its class list has
    [shadow-none] and not [shadow-sm]; every mounted header keeps the offset
    it started with as long as no scroll event is processed. *)
Theorem header_initial_shadow (cfg : TailwindConfig) (ps : props)
  (children : list node) (d : Dom.page) (es : list event) :
  forallb (fun c => negb (touches_shadow cfg c)) (caller_classes ps) = true ->
  forallb (fun e => match e with Scroll _ _ => false | _ => true end) es = true ->
  initial_offset = 0%Z
  /\ In "shadow-none" (class_list (DashboardHeader cfg ps initial_offset children))
  /\ ~ In "shadow-sm" (class_list (DashboardHeader cfg ps initial_offset children))
  /\ Forall (fun i => offset i = initial_offset)
            (mounted (run {| doc := d; mounted := [] |} es)).
Proof.
  intros Hcaller Hes. split; [reflexivity|].
  pose proof (header_shadow_class cfg ps initial_offset children Hcaller) as [H1 H2].
  split; [exact H1|]. split; [exact H2|].
  apply no_scroll_keeps_offsets; [exact Hes | constructor].
Qed.

Lemma header_initial_shadow_witness :
  forallb (fun c => negb (touches_shadow shadow_tables c))
          (caller_classes example_props) = true
  /\ forallb (fun e => match e with Scroll _ _ => false | _ => true end)
             [Mount; Mount; Unmount 0] = true
  /\ initial_offset = 0%Z
  /\ In "shadow-none"
        (class_list (DashboardHeader shadow_tables example_props initial_offset []))
  /\ ~ In "shadow-sm"
          (class_list (DashboardHeader shadow_tables example_props initial_offset []))
  /\ Forall (fun i => offset i = initial_offset)
            (mounted (run {| doc := example_page; mounted := [] |}
                          [Mount; Mount; Unmount 0])).
Proof.
  split; [reflexivity|]. split; [reflexivity|].
  apply header_initial_shadow; reflexivity.
Defined.

(** C3.  When a scroll event reaches the callback, the one state update it
    asks for sets the offset to [document.body.scrollTop] if that is not
    zero and to [document.documentElement.scrollTop] if it is. *)
Theorem onScroll_sets_offset (d : Dom.page) (i : instance) :
  let target :=
    if Z.eq_dec (Dom.body_scrollTop d) 0
    then Dom.documentElement_scrollTop d
    else Dom.body_scrollTop d in
  onScroll d = [SetOffset target]
  /\ fold_left (fun i u => apply_update u i) (onScroll d) i
     = {| offset := target; handler := handler i |}.
Proof.
  unfold onScroll, js_or_num; cbn.
  destruct (Z.eq_dec (Dom.body_scrollTop d) 0) as [E|E].
  - rewrite E; cbn. now split.
  - apply Z.eqb_neq in E. rewrite E. now split.
Qed.

(** ** The scroll listeners of a page follow the headers mounted on it *)

Lemma remove_first_skip (f : Dom.listener -> bool) (l1 l2 : list Dom.listener) :
  existsb f l1 = false ->
  Dom.remove_first f (l1 ++ l2) = (l1 ++ Dom.remove_first f l2)%list.
Proof.
  induction l1 as [|x l1 IH]; intros H; [reflexivity|].
  cbn in *. apply orb_false_iff in H as [Hx Hl]. rewrite Hx.
  now rewrite IH.
Qed.

Lemma remove_nth_split {A : Type} (i : nat) (l : list A) (x : A) :
  nth_error l i = Some x ->
  exists l1 l2, l = (l1 ++ x :: l2)%list /\ remove_nth i l = (l1 ++ l2)%list.
Proof.
  revert l; induction i as [|i IH]; intros [|y l] H; try discriminate.
  - injection H as ->. now exists [], l.
  - destruct (IH l H) as [l1 [l2 [E1 E2]]].
    exists (y :: l1), l2. cbn. now rewrite <- E1, E2.
Qed.

Lemma mounted_no_match (h : nat) (l : list instance) :
  ~ In h (map handler l) ->
  existsb (Dom.same_listener "scroll" h false)
    (map (fun i => scroll_listener (handler i)) l) = false.
Proof.
  induction l as [|i l IH]; intros Hh; [reflexivity|].
  cbn [map existsb]. rewrite IH by (intros H; apply Hh; now right).
  unfold Dom.same_listener, scroll_listener; cbn.
  destruct (Nat.eqb_spec (handler i) h) as [E|E]; [|reflexivity].
  exfalso; apply Hh; now left.
Qed.

Lemma handler_deliver (d : Dom.page) (i : instance) :
  handler (deliver d i) = handler i.
Proof. unfold deliver. now destruct (existsb _ _). Qed.

Section Listeners.
Variable before : list Dom.listener.
Variable first : nat.
Hypothesis before_old : Forall (fun l => Dom.callback l < first) before.

Lemma before_no_match (h : nat) :
  first <= h ->
  existsb (Dom.same_listener "scroll" h false) before = false.
Proof.
  intros Hh. apply not_true_is_false. intros H.
  apply existsb_exists in H as [l [Hl Hm]].
  rewrite Forall_forall in before_old. specialize (before_old l Hl).
  unfold Dom.same_listener in Hm.
  apply andb_prop in Hm as [Hm _]. apply andb_prop in Hm as [_ Hm].
  apply Nat.eqb_eq in Hm. lia.
Qed.

Lemma follows_mount (w : world) :
  follows before first w -> follows before first (step w Mount).
Proof.
  intros [HL HC HR HD]. unfold step, header_effect, Dom.new_function.
  unfold Dom.addEventListener; cbn [Dom.listeners Dom.next_function].
  set (h := Dom.next_function (doc w)) in *.
  assert (Hnew : ~ In h (map handler (mounted w))).
  { intros H. apply in_map_iff in H as [i [Ei Hi]].
    rewrite Forall_forall in HR. specialize (HR i Hi). lia. }
  rewrite HL, existsb_app, (before_no_match h HC), (mounted_no_match h _ Hnew).
  cbn [orb]. constructor; cbn [doc mounted Dom.with_listeners Dom.listeners
                                Dom.next_function].
  - rewrite map_app, app_assoc. reflexivity.
  - lia.
  - apply Forall_app; split.
    + eapply Forall_impl; [|exact HR]. cbn; intros; lia.
    + constructor; [cbn; lia | constructor].
  - rewrite map_app. cbn [map handler].
    apply NoDup_app; [assumption | repeat constructor; intros [] |].
    intros a Ha [<-|[]]. now apply Hnew.
Qed.

Lemma follows_unmount (w : world) (i : nat) :
  follows before first w -> follows before first (step w (Unmount i)).
Proof.
  intros Hw. unfold step.
  destruct (nth_error (mounted w) i) as [inst|] eqn:Hi; [|exact Hw].
  destruct Hw as [HL HC HR HD].
  destruct (remove_nth_split i _ _ Hi) as [m1 [m2 [E1 E2]]].
  rewrite E2. rewrite E1 in HL, HR, HD.
  rewrite map_app in HL, HD. cbn [map] in HL, HD.
  apply Forall_app in HR as [HR1 HR2].
  pose proof (Forall_inv HR2) as Hinst. cbn beta in Hinst.
  apply Forall_inv_tail in HR2.
  pose proof (NoDup_remove_1 _ _ _ HD) as HD1.
  pose proof (NoDup_remove_2 _ _ _ HD) as HD2.
  constructor; cbn [doc mounted header_cleanup Dom.removeEventListener
                    Dom.with_listeners Dom.listeners Dom.next_function].
  - rewrite HL.
    rewrite remove_first_skip by (apply before_no_match; lia).
    rewrite remove_first_skip
      by (apply mounted_no_match; intros H; apply HD2, in_or_app; now left).
    cbn [Dom.remove_first]. unfold Dom.same_listener at 1, scroll_listener at 1.
    cbn. rewrite Nat.eqb_refl. cbn. now rewrite map_app.
  - exact HC.
  - apply Forall_app; now split.
  - now rewrite map_app.
Qed.

Lemma follows_scroll (w : world) (b e : Z) :
  follows before first w -> follows before first (step w (Scroll b e)).
Proof.
  intros [HL HC HR HD].
  constructor; cbn [step doc mounted scrolled Dom.listeners Dom.next_function].
  - rewrite HL, map_map. f_equal. apply map_ext. intros i.
    now rewrite handler_deliver.
  - exact HC.
  - rewrite Forall_map. eapply Forall_impl; [|exact HR].
    cbn. intros i. now rewrite handler_deliver.
  - rewrite map_map.
    rewrite (map_ext _ handler) by (intros; apply handler_deliver).
    exact HD.
Qed.

Lemma follows_run (es : list event) (w : world) :
  follows before first w -> follows before first (run w es).
Proof.
  revert w; induction es as [|e es IH]; intros w Hw; [exact Hw|].
  cbn [run fold_left]. apply IH.
  destruct e; [apply follows_mount | apply follows_unmount | apply follows_scroll];
    exact Hw.
Qed.
End Listeners.

Lemma unmount_first (w : world) :
  mounted (step w (Unmount 0)) = tl (mounted w).
Proof. destruct w as [d [|i l]]; reflexivity. Qed.

Lemma unmount_all (n : nat) (w : world) :
  n = List.length (mounted w) ->
  mounted (run w (repeat (Unmount 0) n)) = [].
Proof.
  revert w; induction n as [|n IH]; intros w Hn.
  - cbn. now destruct (mounted w).
  - cbn [repeat run fold_left]. apply IH.
    rewrite unmount_first. destruct (mounted w); [discriminate|].
    cbn in *. now injection Hn.
Qed.

Lemma run_app (w : world) (es1 es2 : list event) :
  run w (es1 ++ es2) = run (run w es1) es2.
Proof. apply fold_left_app. Qed.

Lemma mount_adds_instance (w : world) :
  mounted (step w Mount)
  = (mounted w
     ++ [{| offset := initial_offset; handler := Dom.next_function (doc w) |}])%list.
Proof. reflexivity. Qed.

Lemma mount_adds_listener (before : list Dom.listener) (first : nat) (w : world) :
  Forall (fun l => Dom.callback l < first) before ->
  follows before first w ->
  Dom.listeners (doc (step w Mount))
  = (Dom.listeners (doc w) ++ [scroll_listener (Dom.next_function (doc w))])%list.
Proof.
  intros Hold [HL HC HR HD]. unfold step, header_effect, Dom.new_function.
  unfold Dom.addEventListener; cbn [Dom.listeners Dom.next_function].
  set (h := Dom.next_function (doc w)) in *.
  assert (Hnew : ~ In h (map handler (mounted w))).
  { intros H. apply in_map_iff in H as [i [Ei Hi]].
    rewrite Forall_forall in HR. specialize (HR i Hi). lia. }
  rewrite HL, existsb_app, (before_no_match before first Hold h HC),
    (mounted_no_match h _ Hnew).
  reflexivity.
Qed.

Lemma remove_nth_out (A : Type) (i : nat) (l : list A) :
  nth_error l i = None -> remove_nth i l = l.
Proof.
  revert l; induction i as [|i IH]; intros [|x l] H; try reflexivity;
    try discriminate.
  cbn in *. now rewrite IH.
Qed.

Lemma unmount_removes_instance (w : world) (i : nat) :
  mounted (step w (Unmount i)) = remove_nth i (mounted w).
Proof.
  unfold step. destruct (nth_error (mounted w) i) eqn:E; [reflexivity|].
  now rewrite remove_nth_out.
Qed.

Lemma nth_handler_split (l1 l2 : list instance) (x : instance) (d : nat) :
  nth (List.length l1) (map handler (l1 ++ x :: l2)) d = handler x.
Proof.
  rewrite map_app, app_nth2 by (rewrite length_map; lia).
  rewrite length_map, Nat.sub_diag. reflexivity.
Qed.

Lemma remove_nth_split_at (A : Type) (i : nat) (l : list A) (x : A) :
  nth_error l i = Some x ->
  exists l1 l2, l = (l1 ++ x :: l2)%list /\ remove_nth i l = (l1 ++ l2)%list
                /\ List.length l1 = i.
Proof.
  revert l; induction i as [|i IH]; intros [|y l] H; try discriminate.
  - injection H as ->. now exists [], l.
  - destruct (IH l H) as [l1 [l2 [E1 [E2 E3]]]].
    exists (y :: l1), l2. cbn. now rewrite <- E1, E2, E3.
Qed.

(** The listener of an unmounted header is not on the document any more. *)
Lemma unmount_removes_listener (before : list Dom.listener) (first : nat)
  (w : world) (i : nat) :
  Forall (fun l => Dom.callback l < first) before ->
  follows before first w ->
  ~ In (scroll_listener
          (nth i (map handler (mounted w)) (Dom.next_function (doc w))))
       (Dom.listeners (doc (step w (Unmount i)))).
Proof.
  intros Hold Hw.
  pose proof (follows_unmount before first Hold w i Hw) as [HL' _ _ _].
  rewrite HL', unmount_removes_instance.
  destruct Hw as [_ HC HR HD].
  set (h := nth i (map handler (mounted w)) (Dom.next_function (doc w))).
  assert (Hh : first <= h /\ ~ In h (map handler (remove_nth i (mounted w)))).
  { unfold h. destruct (nth_error (mounted w) i) as [inst|] eqn:E.
    - destruct (remove_nth_split_at _ i _ _ E) as [l1 [l2 [E1 [E2 E3]]]].
      rewrite E2. rewrite E1 in HR, HD. rewrite E1, <- E3, nth_handler_split.
      split.
      + apply Forall_app in HR as [_ HR]. apply Forall_inv in HR. cbn in HR. lia.
      + rewrite map_app in *. cbn [map] in HD. now apply NoDup_remove_2 in HD.
    - rewrite remove_nth_out by assumption.
      rewrite nth_overflow
        by (rewrite length_map; now apply nth_error_None).
      split; [exact HC|].
      intros H. apply in_map_iff in H as [j [Ej Hj]].
      rewrite Forall_forall in HR. specialize (HR j Hj). lia. }
  destruct Hh as [Hfirst Hout]. intros H. apply in_app_or in H as [H|H].
  - rewrite Forall_forall in Hold. specialize (Hold _ H). cbn in Hold. lia.
  - apply in_map_iff in H as [j [Ej Hj]]. apply Hout.
    apply in_map_iff. exists j. split; [|exact Hj].
    now injection Ej.
Qed.

(** C9.  On a well-formed page, after any sequence of mounts, unmounts and
    scrolls: the listeners of the document are those the page had before,
    followed by exactly one scroll listener per header that is still mounted,
    each for a callback of its own.  Mounting one more header creates a new
    callback and registers exactly one listener, for that callback;
    unmounting a header takes it off the page and removes the listener of its
    callback and no other; and once the headers that are left are unmounted
    too, the document has the listeners it had before and no other. *)
Theorem header_listeners_follow_mounts (d : Dom.page) (es : list event) :
  well_formed d ->
  let w := run {| doc := d; mounted := [] |} es in
  let w' := run w (repeat (Unmount 0) (List.length (mounted w))) in
  Dom.listeners (doc w)
  = (Dom.listeners d ++ map (fun i => scroll_listener (handler i)) (mounted w))%list
  /\ NoDup (map handler (mounted w))
  /\ mounted (step w Mount)
     = (mounted w
        ++ [{| offset := initial_offset; handler := Dom.next_function (doc w) |}])%list
  /\ Dom.listeners (doc (step w Mount))
     = (Dom.listeners (doc w) ++ [scroll_listener (Dom.next_function (doc w))])%list
  /\ ~ In (scroll_listener (Dom.next_function (doc w))) (Dom.listeners (doc w))
  /\ (forall i,
        mounted (step w (Unmount i)) = remove_nth i (mounted w)
        /\ Dom.listeners (doc (step w (Unmount i)))
           = (Dom.listeners d
              ++ map (fun i => scroll_listener (handler i))
                   (remove_nth i (mounted w)))%list
        /\ ~ In (scroll_listener
                   (nth i (map handler (mounted w)) (Dom.next_function (doc w))))
                (Dom.listeners (doc (step w (Unmount i)))))
  /\ mounted w' = []
  /\ Dom.listeners (doc w') = Dom.listeners d.
Proof.
  intros Hd w w'.
  assert (H0 : follows (Dom.listeners d) (Dom.next_function d)
                 {| doc := d; mounted := [] |}).
  { constructor; cbn; [now rewrite app_nil_r | lia | constructor | constructor]. }
  assert (H : follows (Dom.listeners d) (Dom.next_function d) w)
    by (apply follows_run; assumption).
  assert (H' : follows (Dom.listeners d) (Dom.next_function d) w')
    by (apply follows_run; assumption).
  assert (E : mounted w' = []) by (apply unmount_all; reflexivity).
  pose proof H as [HL HC HR HD]. destruct H' as [HL' _ _ _].
  split; [exact HL|]. split; [exact HD|].
  split; [apply mount_adds_instance|].
  split; [now apply (mount_adds_listener (Dom.listeners d) (Dom.next_function d))|].
  split.
  { rewrite HL. intros Hin. apply in_app_or in Hin as [Hin|Hin].
    - unfold well_formed in Hd. rewrite Forall_forall in Hd.
      specialize (Hd _ Hin). cbn in Hd. lia.
    - apply in_map_iff in Hin as [j [Ej Hj]].
      rewrite Forall_forall in HR. specialize (HR j Hj).
      injection Ej as Ej. lia. }
  split.
  { intros i. split; [apply unmount_removes_instance|]. split.
    - pose proof (follows_unmount _ _ Hd w i H) as [HLi _ _ _].
      now rewrite HLi, unmount_removes_instance.
    - now apply (unmount_removes_listener (Dom.listeners d) (Dom.next_function d)). }
  split; [exact E|].
  rewrite HL', E. cbn. now rewrite app_nil_r.
Qed.

Lemma header_listeners_follow_mounts_witness :
  well_formed example_page
  /\ let w := run {| doc := example_page; mounted := [] |} example_events in
     let w' := run w (repeat (Unmount 0) (List.length (mounted w))) in
     Dom.listeners (doc w)
     = (Dom.listeners example_page
        ++ map (fun i => scroll_listener (handler i)) (mounted w))%list
     /\ NoDup (map handler (mounted w))
     /\ mounted (step w Mount)
        = (mounted w
           ++ [{| offset := initial_offset; handler := Dom.next_function (doc w) |}])%list
     /\ Dom.listeners (doc (step w Mount))
        = (Dom.listeners (doc w) ++ [scroll_listener (Dom.next_function (doc w))])%list
     /\ ~ In (scroll_listener (Dom.next_function (doc w))) (Dom.listeners (doc w))
     /\ (forall i,
           mounted (step w (Unmount i)) = remove_nth i (mounted w)
           /\ Dom.listeners (doc (step w (Unmount i)))
              = (Dom.listeners example_page
                 ++ map (fun i => scroll_listener (handler i))
                      (remove_nth i (mounted w)))%list
           /\ ~ In (scroll_listener
                      (nth i (map handler (mounted w)) (Dom.next_function (doc w))))
                   (Dom.listeners (doc (step w (Unmount i)))))
     /\ mounted w' = []
     /\ Dom.listeners (doc w') = Dom.listeners example_page.
Proof.
  assert (Hd : well_formed example_page) by (repeat constructor).
  split; [exact Hd|].
  exact (header_listeners_follow_mounts example_page example_events Hd).
Defined.

(** What the events of the example leave on the page: the click listener it
    had and the scroll listener of the one header that is still mounted. *)
Lemma example_run_listeners :
  Dom.listeners (doc (run {| doc := example_page; mounted := [] |} example_events))
  = (Dom.listeners example_page ++ [scroll_listener 2])%list
  /\ mounted (run {| doc := example_page; mounted := [] |} example_events)
     = [{| offset := initial_offset; handler := 2 |}].
Proof. split; reflexivity. Qed.

(** ** Rendering ends *)

Lemma list_sum_cons (x : nat) (l : list nat) : list_sum (x :: l) = x + list_sum l.
Proof. reflexivity. Qed.

Lemma weight_menu_items (menu menu' : list route) :
  list_sum (map (weight menu') (map sidebar_menu_item menu)) = 6 * List.length menu.
Proof.
  induction menu as [|r menu IH]; [reflexivity|].
  cbn [map List.length]. rewrite list_sum_cons, IH. cbn. lia.
Qed.

Lemma weight_call (cfg : TailwindConfig) (menu : list route) (c : component)
  (ps : props) (cs : list node) :
  weight menu (call cfg menu c ps cs)
  <= cost menu c + list_sum (map (weight menu) cs).
Proof.
  destruct c; cbn [call cost].
  - unfold DashboardSidebar. cbn [weight map].
    rewrite !list_sum_cons, weight_menu_items. cbn. lia.
  - unfold DashboardHeader. cbn [weight map app].
    rewrite !list_sum_cons. cbn. lia.
  - unfold DashboardLayout. cbn [weight map cost].
    rewrite !list_sum_cons. cbn. lia.
  - cbn. lia.
  - unfold Part_001.Layout. cbn [weight cost]. lia.
  - unfold Part_002.Layout. cbn [weight]. lia.
  - cbn. lia.
  - cbn. lia.
Qed.

Lemma render_children (cfg : TailwindConfig) (menu : list route) (f : nat)
  (cs : list node) :
  (forall n, weight menu n <= f ->
     exists r, render cfg menu f n = Some r /\ rendered r = true) ->
  list_sum (map (weight menu) cs) <= f ->
  exists rs, all_some (map (render cfg menu f) cs) = Some rs
             /\ forallb rendered rs = true.
Proof.
  intros IH. induction cs as [|c cs IHcs]; intros H.
  - now exists [].
  - cbn [map] in H. rewrite list_sum_cons in H.
    destruct (IH c) as [r [Er Hr]]; [lia|].
    destruct IHcs as [rs [Ers Hrs]]; [lia|].
    exists (r :: rs). cbn [map all_some]. rewrite Er, Ers. cbn.
    now rewrite Hr, Hrs.
Qed.

Lemma render_total (cfg : TailwindConfig) (menu : list route) (fuel : nat) :
  forall n, weight menu n <= fuel ->
  exists r, render cfg menu fuel n = Some r /\ rendered r = true.
Proof.
  induction fuel as [|f IH]; intros n Hn.
  - destruct n; cbn in Hn; lia.
  - destruct n as [s|t ps cs|cs]; cbn [weight] in Hn.
    + now exists (Text s).
    + destruct t as [name|name|ref|c].
      * destruct (render_children cfg menu f cs IH) as [rs [Ers Hrs]]; [lia|].
        exists (Elem (Host name) ps rs). cbn [render]. rewrite Ers. now cbn.
      * destruct (render_children cfg menu f cs IH) as [rs [Ers Hrs]]; [lia|].
        exists (Elem (Imported name) ps rs). cbn [render]. rewrite Ers. now cbn.
      * destruct (render_children cfg menu f cs IH) as [rs [Ers Hrs]]; [lia|].
        exists (Elem (Dynamic ref) ps rs). cbn [render]. rewrite Ers. now cbn.
      * cbn [render]. apply IH.
        pose proof (weight_call cfg menu c ps cs). lia.
    + destruct (render_children cfg menu f cs IH) as [rs [Ers Hrs]]; [lia|].
      exists (Fragment rs). cbn [render]. rewrite Ers. now cbn.
Qed.

(** ** The route layouts *)

(** C6.  Whatever its children, the layout of the dashboard routes returns
    the [DashboardLayout] element over them, with no attribute and nothing
    around it, and the layout of the public routes the [PublicLayout] element
    over them; rendering the dashboard one is rendering what
    [DashboardLayout] returns for the same children. *)
Theorem route_layouts_forward (cfg : TailwindConfig) (DASHBOARD_MENU : list route)
  (ps : props) (children : list node) (fuel : nat) :
  call cfg DASHBOARD_MENU DashboardRouteLayoutC ps children
  = Elem (Repo DashboardLayoutC) [] children
  /\ call cfg DASHBOARD_MENU PublicRouteLayoutC ps children
     = Elem (Imported "PublicLayout") [] children
  /\ render cfg DASHBOARD_MENU (S (S fuel))
       (Elem (Repo DashboardRouteLayoutC) ps children)
     = render cfg DASHBOARD_MENU fuel (DashboardLayout cfg children).
Proof. repeat split. Qed.

(** ** The placeholder user *)

Lemma find_all_menu_items (t : tag) (menu : list route) :
  tag_eqb t (Imported "SidebarMenuItem") = false ->
  tag_eqb t (Imported "SidebarMenuButton") = false ->
  tag_eqb t (Imported "Link") = false ->
  tag_eqb t (Host "span") = false ->
  (forall ref, tag_eqb t (Dynamic ref) = false) ->
  flat_map (find_all t) (map sidebar_menu_item menu) = [].
Proof.
  intros H1 H2 H3 H4 H5.
  induction menu as [|r menu IH]; [reflexivity|].
  cbn [map flat_map]. rewrite IH, app_nil_r.
  unfold sidebar_menu_item. cbn [find_all flat_map].
  now rewrite H1, H2, H3, H4, H5.
Qed.

(** C10.  The sidebar footer and the header of the dashboard page each hold
    one [ProfileDropdown]; the two are given the same user, field for field,
    and differ in nothing but [side], ["right"] in the sidebar and
    ["bottom"] on the page. *)
Theorem profile_menus_share_user (DASHBOARD_MENU : list route) :
  exists user,
    map fst user = ["name"; "email"; "avatar"]
    /\ find_all (Imported "ProfileDropdown") (DashboardSidebar DASHBOARD_MENU)
       = [Elem (Imported "ProfileDropdown")
            [("user", PObj user); ("side", PStr "right")] []]
    /\ find_all (Imported "ProfileDropdown") Part_003.DashboardPage
       = [Elem (Imported "ProfileDropdown")
            [("user", PObj user); ("side", PStr "bottom")] []].
Proof.
  eexists. split; [|split].
  2: { unfold DashboardSidebar. cbn [find_all flat_map tag_eqb String.eqb Ascii.eqb
                                     Bool.eqb app].
       rewrite find_all_menu_items by reflexivity. reflexivity. }
  - reflexivity.
  - reflexivity.
Qed.

Lemma objects_in_menu_items (menu : list route) :
  flat_map objects_in (map sidebar_menu_item menu) = [].
Proof.
  induction menu as [|r menu IH]; [reflexivity|].
  cbn [map flat_map]. now rewrite IH.
Qed.



(** ** The authentication module *)


(** * Further properties of the components *)

(** ** The sidebar menu *)

Lemma find_all_links_menu (menu : list route) :
  flat_map (find_all (Imported "Link")) (map sidebar_menu_item menu)
  = map (fun r => Elem (Imported "Link") [("href", PStr (url r))]
                    [ Elem (Dynamic (icon r)) [] [];
                      Elem (Host "span") [] [Text (title r)] ]) menu.
Proof.
  induction menu as [|r menu IH]; [reflexivity|].
  cbn [map flat_map]. now rewrite IH.
Qed.

(** X1.  Every item of the content menu carries the title of its entry as
    its key and shows the icon of its entry, and no other component that
    comes out of data. *)
Theorem sidebar_items_key_and_icon (DASHBOARD_MENU : list route) :
  map (fun item => (attr "key" item, dynamic_refs item))
      (content_menu_items (DashboardSidebar DASHBOARD_MENU))
  = map (fun r => (Some (PStr (title r)), [icon r])) DASHBOARD_MENU.
Proof.
  rewrite content_menu_items_sidebar, map_map.
  apply map_ext; intros r. reflexivity.
Qed.

Lemma title_key_injective (a b : string) :
  Some (PStr a) = Some (PStr b) -> a = b.
Proof. now intros [= ->]. Qed.

(** X2.  The keys of the items of the content menu are pairwise distinct
    exactly when the titles of the configured routes are. *)
Theorem sidebar_keys_distinct_iff (DASHBOARD_MENU : list route) :
  NoDup (map (attr "key") (content_menu_items (DashboardSidebar DASHBOARD_MENU)))
  <-> NoDup (map title DASHBOARD_MENU).
Proof.
  rewrite content_menu_items_sidebar, map_map.
  rewrite (map_ext _ (fun r => Some (PStr (title r)))) by reflexivity.
  rewrite <- (map_map title (fun t => Some (PStr t))).
  split.
  - apply NoDup_map_inv.
  - generalize (map title DASHBOARD_MENU) as l.
    induction l as [|t l IH]; intros H; cbn; constructor.
    + inversion H as [|? ? Hin _]; subst. intros Hm.
      apply in_map_iff in Hm as [t' [E Ht']].
      apply title_key_injective in E. now subst.
    + apply IH. now inversion H.
Qed.

(** X3.  The links of the whole sidebar are the brand link to [/dashboard]
    followed by one link per configured route, in order, to the route's
    [url]. *)
Theorem sidebar_links (DASHBOARD_MENU : list route) :
  map (attr "href") (find_all (Imported "Link") (DashboardSidebar DASHBOARD_MENU))
  = Some (PStr "/dashboard") :: map (fun r => Some (PStr (url r))) DASHBOARD_MENU.
Proof.
  unfold DashboardSidebar.
  cbn [find_all flat_map tag_eqb String.eqb Ascii.eqb Bool.eqb app].
  rewrite find_all_links_menu, !app_nil_r.
  cbn [map attr attrs get_prop String.eqb Ascii.eqb Bool.eqb]. f_equal.
  rewrite map_map. reflexivity.
Qed.

(** ** The attributes of the header *)

Lemma get_prop_rest_props_other (k : string) (taken : list string) (ps : props) :
  existsb (String.eqb k) taken = false ->
  get_prop k (rest_props taken ps) = get_prop k ps.
Proof.
  intros Hk; induction ps as [|[k' v] ps IH]; [reflexivity|].
  cbn [rest_props filter fst get_prop].
  destruct (existsb (String.eqb k') taken) eqn:Hk'; cbn [negb].
  - fold (rest_props taken ps). rewrite IH.
    destruct (String.eqb_spec k k') as [->|]; [congruence|].
    now destruct (get_prop k ps).
  - cbn [get_prop]. fold (rest_props taken ps). now rewrite IH.
Qed.

(** X4.  The header hands the caller's attributes on to its element: an
    attribute other than [className], [fixed] and [children] reaches it with
    the caller's value (or stays absent), [fixed] and [children] never reach
    it, and [className] is always there and a string. *)
Theorem header_forwards_attributes (cfg : TailwindConfig) (ps : props)
  (offset : Z) (children : list node) (k : string) :
  attr k (DashboardHeader cfg ps offset children)
  = (if String.eqb k "className"
     then attr "className" (DashboardHeader cfg ps offset children)
     else if String.eqb k "fixed" || String.eqb k "children" then None
     else get_prop k ps)
  /\ exists s, attr "className" (DashboardHeader cfg ps offset children)
               = Some (PStr s).
Proof.
  split.
  - destruct (String.eqb_spec k "className") as [->|Hc]; [reflexivity|].
    unfold attr, DashboardHeader; cbn [attrs get_prop].
    destruct (String.eqb k "fixed" || String.eqb k "children") eqn:Hk.
    + rewrite get_prop_rest_props.
      * apply String.eqb_neq in Hc. now rewrite Hc.
      * cbn [existsb]. apply String.eqb_neq in Hc. rewrite Hc.
        cbn [orb]. now rewrite orb_false_r.
    + rewrite get_prop_rest_props_other.
      * apply String.eqb_neq in Hc. rewrite Hc. now destruct (get_prop k ps).
      * cbn [existsb]. apply String.eqb_neq in Hc. rewrite Hc.
        cbn [orb]. now rewrite orb_false_r.
  - unfold attr, DashboardHeader; cbn [attrs get_prop].
    rewrite get_prop_rest_props by reflexivity.
    cbn [String.eqb Ascii.eqb Bool.eqb]. eauto.
Qed.

(** X5.  The header depends on its offset only through the test
    [offset > 10], and not at all when [fixed] is falsy: two offsets on the
    same side of 10, or any two offsets for a header that is not fixed, give
    the same element. *)
Theorem header_offset_threshold (cfg : TailwindConfig) (ps : props)
  (o1 o2 : Z) (children : list node) :
  truthy (get_prop "fixed" ps) = false \/ (10 <? o1)%Z = (10 <? o2)%Z ->
  DashboardHeader cfg ps o1 children = DashboardHeader cfg ps o2 children.
Proof.
  intros H. unfold DashboardHeader. rewrite !truthy_gate.
  destruct H as [H|H]; [rewrite H, !andb_false_r | rewrite H]; reflexivity.
Qed.

Lemma header_offset_threshold_witness :
  (truthy (get_prop "fixed" example_props) = false \/ (10 <? 11)%Z = (10 <? 4000)%Z)
  /\ DashboardHeader shadow_tables example_props 11 [Text "x"]
     = DashboardHeader shadow_tables example_props 4000 [Text "x"].
Proof.
  split; [right; reflexivity|].
  apply header_offset_threshold. right; reflexivity.
Defined.

(** A header that is given no class and is not fixed: whatever the tables
    and the offset, its class list has [shadow-none] and not [shadow-sm]. *)
Lemma plain_header_no_shadow (cfg : TailwindConfig) (ps : props) (offset : Z)
  (children : list node) :
  get_prop "className" ps = None ->
  truthy (get_prop "fixed" ps) = false ->
  In "shadow-none" (class_list (DashboardHeader cfg ps offset children))
  /\ ~ In "shadow-sm" (class_list (DashboardHeader cfg ps offset children)).
Proof.
  intros Hc Hf. rewrite header_class_list.
  unfold caller_classes. rewrite Hc, Hf, andb_false_r. cbn [toVal class_tokens split_from flush].
  split.
  - rewrite app_assoc. apply mergeClassList_keeps. intros c [].
  - intros H. apply mergeClassList_sound in H.
    rewrite app_assoc in H. apply in_app_or in H as [H|[H|[]]].
    + now apply header_own_classes in H.
    + discriminate.
Qed.

(** X6.  The two dashboard pages use the header without [fixed] and without
    [className]: each has one header, and whatever the Tailwind tables and
    however far the page is scrolled, its class list has [shadow-none] and
    never [shadow-sm]. *)
Theorem page_headers_never_cast_shadow (cfg : TailwindConfig) (offset : Z) :
  Forall (fun page =>
            exists h,
              find_all (Repo DashboardHeaderC) page = [h]
              /\ In "shadow-none"
                   (class_list (DashboardHeader cfg (attrs h) offset (children_of h)))
              /\ ~ In "shadow-sm"
                     (class_list (DashboardHeader cfg (attrs h) offset (children_of h))))
         [Part_003.DashboardPage; Part_004.DashboardPage].
Proof.
  repeat constructor.
  - eexists; split; [reflexivity|].
    now apply plain_header_no_shadow.
  - eexists; split; [reflexivity|].
    now apply plain_header_no_shadow.
Qed.

(** ** The caller's classes come last *)

Lemma merge_from_end_app (cfg : TailwindConfig) (l2 l1 seen : list string) :
  exists seen',
    merge_from_end cfg (l2 ++ l1) seen
    = (merge_from_end cfg l1 seen' ++ merge_from_end cfg l2 seen)%list.
Proof.
  revert seen; induction l2 as [|c l2 IH]; intros seen.
  - exists seen. cbn. now rewrite app_nil_r.
  - cbn [app merge_from_end].
    destruct (classGroupId cfg c) as [g|].
    + destruct (existsb (String.eqb g) seen).
      * apply IH.
      * destruct (IH (g :: conflictingClassGroups cfg g ++ seen)) as [s' E].
        exists s'. now rewrite E, app_assoc.
    + destruct (IH seen) as [s' E]. exists s'. now rewrite E, app_assoc.
Qed.

(** X7.  The caller's [className] is merged last and so has the last word:
    the class list of the header ends with the caller's classes exactly as
    tailwind-merge keeps them on their own, and what stands before them are
    classes the header wrote itself. *)
Theorem header_caller_classes_win (cfg : TailwindConfig) (ps : props)
  (offset : Z) (children : list node) :
  exists kept,
    class_list (DashboardHeader cfg ps offset children)
    = (kept ++ mergeClassList cfg (caller_classes ps))%list
    /\ incl kept
         (class_tokens header_base ++ class_tokens header_fixed
          ++ ["shadow-sm"; "shadow-none"]).
Proof.
  rewrite header_class_list. unfold mergeClassList.
  set (sh := if (10 <? offset)%Z && truthy (get_prop "fixed" ps)
            then "shadow-sm" else "shadow-none").
  set (fx := class_tokens (toVal (js_and (get_prop "fixed" ps) (Some (PStr header_fixed))))).
  replace (class_tokens header_base ++ fx ++ sh :: caller_classes ps)%list
    with ((class_tokens header_base ++ fx ++ [sh]) ++ caller_classes ps)%list
    by (rewrite <- !app_assoc; reflexivity).
  rewrite rev_app_distr.
  destruct (merge_from_end_app cfg (rev (caller_classes ps))
              (rev (class_tokens header_base ++ fx ++ [sh])) []) as [seen' E].
  rewrite E. eexists; split; [reflexivity|].
  intros t Ht. apply merge_from_end_sound, in_rev in Ht.
  apply in_app_or in Ht as [Ht|Ht]; [apply in_or_app; now left|].
  apply in_or_app; right.
  apply in_app_or in Ht as [Ht|[<-|[]]].
  - apply in_or_app; left. unfold fx, js_and in Ht.
    destruct (truthy (get_prop "fixed" ps)) eqn:Hf; [exact Ht|].
    rewrite (falsy_toVal _ Hf) in Ht. destruct Ht.
  - apply in_or_app; right. unfold sh.
    destruct ((10 <? offset)%Z && truthy (get_prop "fixed" ps)); cbn; tauto.
Qed.

(** ** Scrolling reaches every mounted header *)

Lemma scroll_target_or (b e : Z) : js_or_num b e = scroll_target b e.
Proof.
  unfold js_or_num, scroll_target.
  destruct (Z.eq_dec b 0) as [->|H]; [reflexivity|].
  apply Z.eqb_neq in H. now rewrite H.
Qed.

Lemma follows_registered (before : list Dom.listener) (first : nat) (w : world)
  (i : instance) :
  follows before first w ->
  In i (mounted w) ->
  existsb (Dom.same_listener "scroll" (handler i) false) (Dom.listeners (doc w))
  = true.
Proof.
  intros [HL _ _ _] Hi. rewrite HL, existsb_app.
  apply orb_true_iff; right. apply existsb_exists.
  exists (scroll_listener (handler i)). split.
  - apply in_map_iff. now exists i.
  - unfold Dom.same_listener, scroll_listener; cbn. now rewrite Nat.eqb_refl.
Qed.

Lemma scroll_reaches_mounted (d : Dom.page) (es : list event) (b e : Z) :
  well_formed d ->
  mounted (step (run {| doc := d; mounted := [] |} es) (Scroll b e))
  = map (fun i => {| offset := scroll_target b e; handler := handler i |})
        (mounted (run {| doc := d; mounted := [] |} es)).
Proof.
  intros Hd. set (w := run _ es).
  assert (H : follows (Dom.listeners d) (Dom.next_function d) w).
  { apply follows_run; [exact Hd|].
    constructor; cbn; [now rewrite app_nil_r | lia | constructor | constructor]. }
  cbn [step mounted]. apply map_ext_in. intros i Hi.
  unfold deliver. cbn [scrolled Dom.listeners].
  rewrite (follows_registered _ _ w i H Hi).
  unfold onScroll; cbn. now rewrite scroll_target_or.
Qed.

(** X8.  On a well-formed page, after any sequence of mounts, unmounts and
    scrolls, one more scroll event sets the offset of every header that is
    mounted to [body.scrollTop], or to [documentElement.scrollTop] when that
    is zero; it changes neither which headers are mounted nor the listeners
    of the document. *)
Theorem scroll_updates_every_mounted_header (d : Dom.page) (es : list event)
  (b e : Z) :
  well_formed d ->
  let w := run {| doc := d; mounted := [] |} es in
  let w' := step w (Scroll b e) in
  map offset (mounted w') = repeat (scroll_target b e) (List.length (mounted w))
  /\ map handler (mounted w') = map handler (mounted w)
  /\ Dom.listeners (doc w') = Dom.listeners (doc w).
Proof.
  intros Hd w w'. subst w'. unfold w.
  rewrite scroll_reaches_mounted by assumption. fold w.
  rewrite !map_map. cbn [offset handler]. repeat split.
  induction (mounted w) as [|i l IH]; [reflexivity|].
  cbn. now rewrite IH.
Qed.

Lemma scroll_updates_every_mounted_header_witness :
  well_formed example_page
  /\ map offset
       (mounted (step (run {| doc := example_page; mounted := [] |} example_events)
                      (Scroll 0 250)))
     = repeat (scroll_target 0 250)
         (List.length (mounted (run {| doc := example_page; mounted := [] |}
                                     example_events)))
  /\ map handler
       (mounted (step (run {| doc := example_page; mounted := [] |} example_events)
                      (Scroll 0 250)))
     = map handler (mounted (run {| doc := example_page; mounted := [] |} example_events))
  /\ Dom.listeners
       (doc (step (run {| doc := example_page; mounted := [] |} example_events)
                  (Scroll 0 250)))
     = Dom.listeners (doc (run {| doc := example_page; mounted := [] |} example_events)).
Proof.
  assert (Hd : well_formed example_page) by (repeat constructor).
  split; [exact Hd|].
  exact (scroll_updates_every_mounted_header example_page example_events 0 250 Hd).
Defined.

(** X9.  From scroll to shadow: on a well-formed page, once a scroll event
    has been processed, a mounted header whose [className] leaves the shadow
    classes alone has [shadow-sm] exactly when it is fixed and the scroll
    position the callback read is above 10, and [shadow-none] exactly when
    not. *)
Theorem shadow_follows_scroll (cfg : TailwindConfig) (ps : props)
  (children : list node) (d : Dom.page) (es : list event) (b e : Z) :
  well_formed d ->
  forallb (fun c => negb (touches_shadow cfg c)) (caller_classes ps) = true ->
  Forall (fun i =>
            (In "shadow-sm" (class_list (DashboardHeader cfg ps (offset i) children))
             <-> shadow_on ps (scroll_target b e))
            /\ (In "shadow-none" (class_list (DashboardHeader cfg ps (offset i) children))
                <-> ~ shadow_on ps (scroll_target b e)))
         (mounted (step (run {| doc := d; mounted := [] |} es) (Scroll b e))).
Proof.
  intros Hd Hcaller.
  rewrite scroll_reaches_mounted by assumption.
  apply Forall_forall. intros i Hi.
  apply in_map_iff in Hi as [j [<- _]]. cbn [offset].
  pose proof (header_shadow_class cfg ps (scroll_target b e) children Hcaller) as H.
  cbv zeta in H. rewrite shadow_on_bool.
  destruct ((10 <? scroll_target b e)%Z && truthy (get_prop "fixed" ps));
    destruct H as [Hin Hout]; repeat split; intros; try congruence;
    try contradiction; try assumption.
Qed.

Lemma shadow_follows_scroll_witness :
  well_formed example_page
  /\ forallb (fun c => negb (touches_shadow shadow_tables c))
             (caller_classes example_props) = true
  /\ Forall (fun i =>
               (In "shadow-sm"
                   (class_list (DashboardHeader shadow_tables example_props (offset i) []))
                <-> shadow_on example_props (scroll_target 0 250))
               /\ (In "shadow-none"
                      (class_list (DashboardHeader shadow_tables example_props (offset i) []))
                   <-> ~ shadow_on example_props (scroll_target 0 250)))
            (mounted (step (run {| doc := example_page; mounted := [] |} example_events)
                           (Scroll 0 250))).
Proof.
  assert (Hd : well_formed example_page) by (repeat constructor).
  split; [exact Hd|]. split; [reflexivity|].
  apply shadow_follows_scroll; [exact Hd | reflexivity].
Defined.

(** ** Rendering with more fuel *)

Lemma all_some_map_ext {A B : Type} (g g' : A -> option B) (l : list A)
  (rs : list B) :
  (forall a r, In a l -> g a = Some r -> g' a = Some r) ->
  all_some (map g l) = Some rs -> all_some (map g' l) = Some rs.
Proof.
  revert rs; induction l as [|a l IH]; intros rs Hg H; [exact H|].
  cbn [map all_some] in *.
  destruct (g a) as [r|] eqn:Ea; [|discriminate].
  rewrite (Hg a r (or_introl eq_refl) Ea).
  destruct (all_some (map g l)) as [rs'|] eqn:El; [|discriminate].
  rewrite (IH rs'); [exact H | | reflexivity].
  intros a' r' Ha'. apply Hg. now right.
Qed.

Lemma all_some_Forall2 {A B : Type} (g : A -> option B) (l : list A)
  (rs : list B) :
  all_some (map g l) = Some rs -> Forall2 (fun a r => g a = Some r) l rs.
Proof.
  revert rs; induction l as [|a l IH]; intros rs H; cbn in H.
  - injection H as <-. constructor.
  - destruct (g a) as [r|] eqn:Ea; [|discriminate].
    destruct (all_some (map g l)) as [rs'|]; [|discriminate].
    injection H as <-. constructor; [exact Ea | now apply IH].
Qed.

Lemma Forall2_all_some {A B : Type} (g : A -> option B) (l : list A)
  (rs : list B) :
  Forall2 (fun a r => g a = Some r) l rs -> all_some (map g l) = Some rs.
Proof.
  induction 1 as [|a r l rs Ha _ IH]; [reflexivity|].
  cbn [map all_some]. now rewrite Ha, IH.
Qed.

Lemma render_step (cfg : TailwindConfig) (menu : list route) (f : nat) :
  forall n r, render cfg menu f n = Some r -> render cfg menu (S f) n = Some r.
Proof.
  induction f as [|f IH]; intros n r H; [discriminate|].
  destruct n as [s|t ps cs|cs].
  - exact H.
  - destruct t as [name|name|ref|c].
    + cbn [render] in H.
      destruct (all_some (map (render cfg menu f) cs)) as [rs|] eqn:E; [|discriminate].
      change (option_map (Elem (Host name) ps)
                (all_some (map (render cfg menu (S f)) cs)) = Some r).
      rewrite (all_some_map_ext (render cfg menu f) (render cfg menu (S f)) cs rs);
        [exact H | | exact E].
      intros a r' _. apply IH.
    + cbn [render] in H.
      destruct (all_some (map (render cfg menu f) cs)) as [rs|] eqn:E; [|discriminate].
      change (option_map (Elem (Imported name) ps)
                (all_some (map (render cfg menu (S f)) cs)) = Some r).
      rewrite (all_some_map_ext (render cfg menu f) (render cfg menu (S f)) cs rs);
        [exact H | | exact E].
      intros a r' _. apply IH.
    + cbn [render] in H.
      destruct (all_some (map (render cfg menu f) cs)) as [rs|] eqn:E; [|discriminate].
      change (option_map (Elem (Dynamic ref) ps)
                (all_some (map (render cfg menu (S f)) cs)) = Some r).
      rewrite (all_some_map_ext (render cfg menu f) (render cfg menu (S f)) cs rs);
        [exact H | | exact E].
      intros a r' _. apply IH.
    + change (render cfg menu (S f) (call cfg menu c ps cs) = Some r).
      apply IH. exact H.
  - cbn [render] in H.
    destruct (all_some (map (render cfg menu f) cs)) as [rs|] eqn:E; [|discriminate].
    change (option_map Fragment
              (all_some (map (render cfg menu (S f)) cs)) = Some r).
    rewrite (all_some_map_ext (render cfg menu f) (render cfg menu (S f)) cs rs);
        [exact H | | exact E].
    intros a r' _. apply IH.
Qed.

Lemma render_more_fuel (cfg : TailwindConfig) (menu : list route) (f f' : nat)
  (n r : node) :
  f <= f' -> render cfg menu f n = Some r -> render cfg menu f' n = Some r.
Proof.
  induction 1 as [|f' _ IH]; intros H; [exact H|].
  apply render_step. now apply IH.
Qed.

(** ** The dashboard layout, rendered *)

Lemma rendered_menu_items (menu : list route) :
  forallb rendered (map sidebar_menu_item menu) = true.
Proof. induction menu as [|r menu IH]; [reflexivity|]. cbn. exact IH. Qed.

Lemma rendered_sidebar (menu : list route) :
  rendered (DashboardSidebar menu) = true.
Proof.
  unfold DashboardSidebar. cbn [rendered forallb andb].
  now rewrite rendered_menu_items.
Qed.

Lemma weight_sidebar (menu : list route) :
  weight menu (DashboardSidebar menu) = 17 + 6 * List.length menu.
Proof.
  unfold DashboardSidebar. cbn [weight map].
  rewrite !list_sum_cons, weight_menu_items. cbn. lia.
Qed.

Lemma render_of_rendered (cfg : TailwindConfig) (menu : list route) (f : nat) :
  forall n r, rendered n = true -> render cfg menu f n = Some r -> r = n.
Proof.
  induction f as [|f IH]; intros n r Hn Hr; [discriminate|].
  assert (Hcs : forall cs rs,
             forallb rendered cs = true ->
             all_some (map (render cfg menu f) cs) = Some rs -> rs = cs).
  { intros cs rs Hcs E. apply all_some_Forall2 in E.
    induction E as [|c r' cs rs Hc _ IHE]; [reflexivity|].
    cbn [forallb] in Hcs. apply andb_prop in Hcs as [H1 H2].
    now rewrite (IH c r' H1 Hc), IHE. }
  destruct n as [s|t ps cs|cs].
  - now injection Hr as <-.
  - destruct t as [name|name|ref|c]; [| | |discriminate];
      cbn [render rendered] in *;
      destruct (all_some (map (render cfg menu f) cs)) as [rs|] eqn:E;
      try discriminate;
      injection Hr as <-; now rewrite (Hcs cs rs Hn E).
  - cbn [render rendered] in *.
    destruct (all_some (map (render cfg menu f) cs)) as [rs|] eqn:E;
      [|discriminate].
    injection Hr as <-. now rewrite (Hcs cs rs Hn E).
Qed.

Lemma render_rendered (cfg : TailwindConfig) (menu : list route) (n : node) :
  rendered n = true ->
  render cfg menu (weight menu n) n = Some n.
Proof.
  intros Hn.
  destruct (render_total cfg menu (weight menu n) n (Nat.le_refl _)) as [r [Hr _]].
  now rewrite Hr, (render_of_rendered cfg menu _ n r Hn Hr).
Qed.

Lemma weight_layout (cfg : TailwindConfig) (menu : list route) (cs : list node) :
  weight menu (DashboardLayout cfg cs)
  = 20 + 6 * List.length menu + list_sum (map (weight menu) cs).
Proof.
  unfold DashboardLayout. cbn [weight map cost].
  rewrite !list_sum_cons. cbn. lia.
Qed.

(** X11.  With fuel for its weight, the dashboard layout renders to the
    sidebar provider holding first the sidebar, as [DashboardSidebar]
    returns it, and then the content element around the renders of the
    children, in order. *)
Theorem layout_renders_sidebar_then_children (cfg : TailwindConfig)
  (DASHBOARD_MENU : list route) (children : list node) (fuel : nat) :
  weight DASHBOARD_MENU (DashboardLayout cfg children) <= fuel ->
  exists rs content,
    Forall2 (fun c r => render cfg DASHBOARD_MENU fuel c = Some r) children rs
    /\ DashboardLayout cfg rs
       = Elem (Imported "SidebarProvider") []
           [Elem (Repo DashboardSidebarC) [] []; content]
    /\ children_of content = rs
    /\ render cfg DASHBOARD_MENU fuel (DashboardLayout cfg children)
       = Some (Elem (Imported "SidebarProvider") []
                 [DashboardSidebar DASHBOARD_MENU; content]).
Proof.
  rewrite weight_layout. intros Hf.
  destruct fuel as [|[|f]]; [lia | lia |].
  destruct (render_children cfg DASHBOARD_MENU f children
              (render_total cfg DASHBOARD_MENU f)) as [rs [Ers _]]; [lia|].
  exists rs. eexists. split; [|split; [reflexivity|split; [reflexivity|]]].
  - apply all_some_Forall2.
    apply (all_some_map_ext (render cfg DASHBOARD_MENU f)); [|exact Ers].
    intros a r _. apply render_more_fuel. lia.
  - unfold DashboardLayout.
    change (render cfg DASHBOARD_MENU (S (S f)) (Elem (Imported "SidebarProvider") [] ?cs))
      with (option_map (Elem (Imported "SidebarProvider") [])
              (all_some (map (render cfg DASHBOARD_MENU (S f)) cs))).
    cbn [map all_some].
    change (render cfg DASHBOARD_MENU (S f) (Elem (Repo DashboardSidebarC) [] []))
      with (render cfg DASHBOARD_MENU f (DashboardSidebar DASHBOARD_MENU)).
    rewrite (render_more_fuel cfg DASHBOARD_MENU
               (weight DASHBOARD_MENU (DashboardSidebar DASHBOARD_MENU)) f
               (DashboardSidebar DASHBOARD_MENU) (DashboardSidebar DASHBOARD_MENU));
      [| rewrite weight_sidebar; lia | apply render_rendered, rendered_sidebar].
    change (render cfg DASHBOARD_MENU (S f) (Elem (Host "div") ?ps children))
      with (option_map (Elem (Host "div") ps)
              (all_some (map (render cfg DASHBOARD_MENU f) children))).
    rewrite Ers. reflexivity.
Qed.

Lemma layout_renders_sidebar_then_children_witness :
  weight [] (DashboardLayout shadow_tables [Text "x"]) <= 30
  /\ exists rs content,
       Forall2 (fun c r => render shadow_tables [] 30 c = Some r) [Text "x"] rs
       /\ DashboardLayout shadow_tables rs
          = Elem (Imported "SidebarProvider") []
              [Elem (Repo DashboardSidebarC) [] []; content]
       /\ children_of content = rs
       /\ render shadow_tables [] 30 (DashboardLayout shadow_tables [Text "x"])
          = Some (Elem (Imported "SidebarProvider") []
                    [DashboardSidebar []; content]).
Proof.
  assert (H : weight [] (DashboardLayout shadow_tables [Text "x"]) <= 30)
    by (vm_compute; lia).
  split; [exact H|].
  exact (layout_renders_sidebar_then_children shadow_tables [] [Text "x"] 30 H).
Defined.

(** ** The dashboard route, rendered *)

Lemma render_layout (cfg : TailwindConfig) (menu : list route) (f : nat)
  (cs rs : list node) :
  weight menu (DashboardSidebar menu) <= f ->
  all_some (map (render cfg menu f) cs) = Some rs ->
  render cfg menu (S (S f)) (DashboardLayout cfg cs)
  = Some (Elem (Imported "SidebarProvider") []
            [DashboardSidebar menu; layout_content cfg rs]).
Proof.
  intros Hf Ers. unfold DashboardLayout.
  change (render cfg menu (S (S f)) (Elem (Imported "SidebarProvider") [] ?l))
    with (option_map (Elem (Imported "SidebarProvider") [])
            (all_some (map (render cfg menu (S f)) l))).
  cbn [map all_some].
  change (render cfg menu (S f) (Elem (Repo DashboardSidebarC) [] []))
    with (render cfg menu f (DashboardSidebar menu)).
  rewrite (render_more_fuel cfg menu (weight menu (DashboardSidebar menu)) f
             (DashboardSidebar menu) (DashboardSidebar menu));
    [| exact Hf | apply render_rendered, rendered_sidebar].
  change (render cfg menu (S f) (Elem (Host "div") ?ps cs))
    with (option_map (Elem (Host "div") ps) (all_some (map (render cfg menu f) cs))).
  rewrite Ers. reflexivity.
Qed.

Lemma find_all_under_provider (t : tag) (a b : node) :
  tag_eqb t (Imported "SidebarProvider") = false ->
  find_all t (Elem (Imported "SidebarProvider") [] [a; b])
  = (find_all t a ++ find_all t b)%list.
Proof.
  intros H. cbn [find_all flat_map]. now rewrite H, app_nil_r.
Qed.

Lemma find_all_profile_sidebar (menu : list route) :
  map (attr "side") (find_all (Imported "ProfileDropdown") (DashboardSidebar menu))
  = [Some (PStr "right")].
Proof.
  unfold DashboardSidebar.
  cbn [find_all flat_map tag_eqb String.eqb Ascii.eqb Bool.eqb app].
  rewrite find_all_menu_items by reflexivity. reflexivity.
Qed.

Lemma find_all_header_sidebar (menu : list route) :
  find_all (Host "header") (DashboardSidebar menu) = [].
Proof.
  unfold DashboardSidebar.
  cbn [find_all flat_map tag_eqb String.eqb Ascii.eqb Bool.eqb app].
  rewrite find_all_menu_items by reflexivity. reflexivity.
Qed.

(** X12.  The dashboard page inside the layout of its route renders, with
    fuel for its weight, to one tree in which the content menu has one item
    per configured route, in order, with the route's link and title; the
    profile menu stands twice, first in the sidebar opening to the right and
    then in the header opening to the bottom; and the one header has
    [shadow-none] and not [shadow-sm]. *)
Theorem dashboard_route_renders (cfg : TailwindConfig) (DASHBOARD_MENU : list route) :
  exists r,
    render cfg DASHBOARD_MENU (weight DASHBOARD_MENU dashboard_route) dashboard_route
    = Some r
    /\ map (fun item => (link_target item, visible_label item)) (content_menu_items r)
       = map (fun e => (Some (PStr (url e)), title e)) DASHBOARD_MENU
    /\ map (attr "side") (find_all (Imported "ProfileDropdown") r)
       = [Some (PStr "right"); Some (PStr "bottom")]
    /\ exists h,
         find_all (Host "header") r = [h]
         /\ In "shadow-none" (class_list h)
         /\ ~ In "shadow-sm" (class_list h).
Proof.
  set (f := weight DASHBOARD_MENU (DashboardSidebar DASHBOARD_MENU) + 3).
  pose (page :=
          match Part_003.DashboardPage with
          | Fragment [Elem _ ps cs; main] =>
              Fragment [DashboardHeader cfg ps initial_offset cs; main]
          | n => n
          end).
  cbv beta iota zeta delta [Part_003.DashboardPage] in page.
  assert (Hpage : render cfg DASHBOARD_MENU f (Elem (Repo DashboardPageC) [] [])
                  = Some page).
  { apply (render_more_fuel cfg DASHBOARD_MENU 8);
      [unfold f; rewrite weight_sidebar; lia|].
    reflexivity. }
  eexists. split; [|split; [|split]].
  - apply (render_more_fuel cfg DASHBOARD_MENU (S (S (S (S f))))).
    + unfold f, dashboard_route. rewrite weight_sidebar. cbn. lia.
    + change (render cfg DASHBOARD_MENU (S (S (S (S f)))) dashboard_route)
        with (render cfg DASHBOARD_MENU (S (S f))
                (DashboardLayout cfg [Elem (Repo DashboardPageC) [] []])).
      apply render_layout; [unfold f; lia|].
      cbn [map all_some]. rewrite Hpage. reflexivity.
  - unfold content_menu_items.
    rewrite find_all_under_provider by reflexivity.
    change (find_all (Imported "SidebarContent") (layout_content cfg _)) with (@nil node).
    rewrite app_nil_r.
    change (flat_map (find_all (Imported "SidebarMenuItem"))
              (find_all (Imported "SidebarContent") (DashboardSidebar DASHBOARD_MENU)))
      with (content_menu_items (DashboardSidebar DASHBOARD_MENU)).
    rewrite content_menu_items_sidebar, map_map.
    apply map_ext; intros e. reflexivity.
  - rewrite find_all_under_provider by reflexivity.
    rewrite map_app, find_all_profile_sidebar. reflexivity.
  - rewrite find_all_under_provider by reflexivity.
    rewrite find_all_header_sidebar. cbn [app].
    eexists. split; [reflexivity|].
    now apply plain_header_no_shadow.
Qed.
